(* ===== verification/_CoqProject ===== *)
-Q . S2P
Prelude.v
JsString.v
Dom.v
RepoInfo.v
PRLink.v
Clipboard.v
Injection.v
Notification.v
Click.v
EventLoop.v
