(* ===== verification/Prelude.v ===== *)
(** * A verification library for the GithubPRMarkLink content script

    The program is one browser content script,
    [src/Shared (Extension)/Resources/content.js].  On a pull-request page of
    the host site it inserts a "Copy PR Link" button into the header action
    region; a click scrapes the PR title, author, number and repository
    slug from the page, formats them as an HTML anchor and as plain text,
    writes them to the system clipboard (rich first, plain text as the
    fallback) and reports the outcome in transient toast notifications.
    Two MutationObservers re-run the insertion whenever the page changes.

    ** Parts of the program and how they interact

    - JS values and strings ([JsString.v]): the string primitives the
      script calls ([String.prototype.split] with a one-character
      separator, [includes], [trim] with ECMAScript's whitespace set) and
      the rendering of a nullable value in a template literal.
    - Page data ([Dom.v]): the part of the document the script reads and
      writes (the metadata element, the three text elements, the header
      action region with its children, the elements elsewhere, the toast
      elements appended to the body) and [location].
    - Page-Data Extractor ([RepoInfo.v], [PRLink.v]): [getRepoInfo]
      (content.js 1-13) and the extraction half of [generatePRLink]
      (15-47).
    - Link Formatter ([PRLink.v]): the two template literals of
      [generatePRLink] (lines 39 and 42).
    - Clipboard Writer ([Clipboard.v]): [copyToClipboard] (49-73) against
      an environment that says which clipboard API exists and whether each
      write is accepted.
    - Notification Presenter ([Notification.v]): [showNotification]
      (75-95) with its two timers.
    - Injection Controller ([Injection.v]): [addButton] (111-124),
      [checkAndAddButton] and its closure [tryAddButton] (126-148).
    - Click handler ([Click.v]): [handleButtonClick] (98-108), composing
      the extractor, formatter, clipboard writer and presenter.
    - Event loop ([EventLoop.v]): the two MutationObservers and the
      initial call (150-173), the timer queue and the host page's own
      changes, as a step relation on a world state.

    ** Correspondence of state and operations

    The script keeps no global state besides [lastUrl] and the closure
    counter [attempts].  Everything else lives in the DOM, the clipboard
    and the timer queue.  The model threads these as explicit records: a
    [Dom.dom], a [Clipboard.clip_state], a list of pending timers and the
    pending mutation records of each observer.  Fallible code returns a
    [Prelude.completion] (a normal value or a thrown JS [Error],
    [TypeError] or [ReferenceError]); a promise is represented by its
    settlement; code that threads state and may throw is written in the
    small monad [Prelude.Js].

    ** Files, in dependency order

    - [Prelude.v] (this file): JS errors, completions, settled promises,
      the monad [Js] with its notation, hint databases, tactics.
    - [JsString.v]: [js_split], [join], [includes], [trim], [utf8],
      [template_nullable]; split/join round trips, [includes_spec], the
      fuel of [trim_start_with] is enough, UTF-8 whitespace is a prefix
      code ([prefix_free]) and a blank string trims to [""].
    - [Dom.v]: [element], [node], [toast], [location], [dom],
      [getAttribute], [getElementById], [count_id], the timer [task]s.
    - [RepoInfo.v]: [getRepoInfo] and its branches.
    - [PRLink.v]: [generatePRLink] as its two halves [extract_summary]
      (lines 19-35) and [format_link] (39-42); two readers of the anchor:
      [parse_anchor] (markup-free text only) and [read_anchor] (the
      visible text as an HTML consumer reads it, [visible_text]), and
      [escape_html], the escaping the script lacks.
    - [Clipboard.v]: [copyToClipboard] over [clip_state] and [clip_env];
      the spec's [clipboard_contract].
    - [Injection.v]: [addButton], [tryAddButton], [checkAndAddButton],
      [run_acted] (whether a run did work, read off its result) and
      [chain_attempts] (the runs of one retry chain that did work).
    - [Notification.v]: [showNotification], [fade_toast], [remove_toast].
    - [Click.v]: [handleButtonClick].
    - [EventLoop.v]: [world], [notify_observers], [url_watch], [fire],
      [script_start], the step relation [step], [reachable],
      [next_internal], [settle] and the termination [measure].

    ** What the theorems show

    - Formatting and extraction (PRLink, RepoInfo): the spec's scenario
      ("Fix bug by alice · #42 · octo/hello"), the round trip from the
      rich link to the plain text under its side conditions, and its
      failure for every text whose first markup is [</a>] (the visible
      text stops there; escaped text would read back whole), every error
      branch, the slug from the path, and two values the spec does not
      expect: the empty title of any blank title element and the slug
      "null".
    - Clipboard: the call order (rich first; exactly one plain-text
      attempt after a rejection; none after a success), the messages, a
      refinement of the spec's contract, and two synchronous exceptions
      that skip the fallback (no [navigator.clipboard]; no
      [ClipboardItem]), with JavaScriptCore's messages (the extension is
      a Safari extension).  A present [navigator.clipboard] is taken to
      have [writeText] (every browser with the asynchronous clipboard API
      has it).
    - Injection: [addButton]'s count law, idempotence, a run does work
      exactly when it calls [addButton], at most ten such runs per chain
      and exactly ten when the header never appears.
    - Event loop: at most one button in every reachable world and retry
      counters in 1..10 (rule induction on [step]); termination of the
      script's own steps and [settle] reaching a world with no record and
      no timer; a retry that fires after navigation to a non-PR page with
      a header region inserts the button there; checks start parallel
      chains.
    - Click and toasts: every click reports its outcome in a second toast;
      a toast fades at +3000 ms and is removed at +3500 ms.

    ** Bounds and fuel

    [maxAttempts] is 10 as in the source.  [trim_start_with] runs
    [String.length s] rounds, enough since each round strips at least
    one byte.  [settle fuel w] needs [fuel > measure w], where [measure]
    charges a pending retry [3 + (10 - k)], a fade 28, a removal 27 and a
    queued record 13 while the button is missing (1 each once it exists):
    every internal step lowers it ([next_internal_measure]).

    ** Simplifications

    The clipboard promise of a click settles within the click's task (the
    clipboard and the toasts are the only state it touches, and no other
    callback reads them).  The host page is an environment that may change
    its own content but never creates an element with the button's id or
    a toast of the script; its childList records go to both observers
    when they are inside [document.body] and to the second only
    otherwise; navigation by [history.pushState] changes the location
    without a DOM change.

    ** What is not modelled

    [console.log]/[console.error] output (pure I/O, no state the script
    reads), the CSS text of the toast, the browser's HTML parser beyond
    the anchor text ([read_anchor]: tags are skipped, four character
    references decoded), and [querySelector] on
    arbitrary selectors: the script uses five fixed selectors and the
    [dom] record gives the document's answer to each.  Strings are Rocq
    [string]s of UTF-8 bytes; the middle dot U+00B7 of the link text is
    its two bytes, and [trim] strips the UTF-8 encodings of ECMAScript's
    WhiteSpace and LineTerminator code points.

    ** Plan for the next sittings

    1. An interface ([Class]) for the clipboard environment and the
       Clipboard Writer's contract, with [Click] proved against it.
    2. The toast invariant of the event loop: serials are unique and
       every toast in the body has exactly one pending timer, so none
       leaks; the click's clipboard settlement as a step of its own.
    3. [trim]: no leading or trailing white space, idempotence, and the
       infix property; the exact result of [generatePRLink] for text with
       surrounding white space (the blank case is done).
    4. The first-match behaviour of [querySelector('.author')], which
       takes the first [.author] of the page.

    This file, the root of the library, holds what every component
    shares: the JS error and completion types, the state-and-exception
    monad with its notation, the hint database [js] and the tactics. *)

From Stdlib Require Export String Ascii List Lia.
From stdpp Require Export base list decidable.
Export ListNotations.

Declare Scope js_scope.
Delimit Scope js_scope with js.
Open Scope string_scope.

Create HintDb js.
Create Rewrite HintDb js_rw.

(** Decidable equality of strings and characters for [decide]; stdpp's
    own [strings] module is not loaded, as it makes [String.append]
    opaque to [simpl]. *)
#[export] Instance ascii_eq_dec : EqDecision ascii := ascii_dec.
#[export] Instance string_eq_dec : EqDecision string := string_dec.

(** ** JS exceptions and completions *)

(** The exception classes the script can raise or observe: [new
    Error(msg)], the [TypeError] the engine throws when a property of
    [undefined] is read, and the [ReferenceError] it throws for an
    undeclared global such as a missing [ClipboardItem]. *)
Inductive js_error : Type :=
| Error (msg : string)
| TypeError (msg : string)
| ReferenceError (msg : string).

(** [error.message]. *)
Definition message (e : js_error) : string :=
  match e with
  | Error m => m
  | TypeError m => m
  | ReferenceError m => m
  end.

#[export] Instance js_error_eq_dec : EqDecision js_error.
Proof. solve_decision. Qed.

(** The completion of a call: it returns normally or throws. *)
Inductive completion (A : Type) : Type :=
| Normal (v : A)
| Throw (e : js_error).
Arguments Normal {A} v.
Arguments Throw {A} e.

(** ** The state-and-exception monad

    [Js S A] is a computation over a store [S] that returns an [A] or
    throws; the store is kept on both paths, as the effects made before
    a [throw] remain. *)
Definition Js (S A : Type) : Type := S -> completion A * S.

Definition ret {S A} (a : A) : Js S A := fun s => (Normal a, s).

Definition bind {S A B} (c : Js S A) (k : A -> Js S B) : Js S B :=
  fun s => match c s with
           | (Normal a, s') => k a s'
           | (Throw e, s') => (Throw e, s')
           end.

Definition throw {S A} (e : js_error) : Js S A := fun s => (Throw e, s).

(** [try { c } catch (e) { h(e) }]. *)
Definition try_catch {S A} (c : Js S A) (h : js_error -> Js S A) : Js S A :=
  fun s => match c s with
           | (Normal a, s') => (Normal a, s')
           | (Throw e, s') => h e s'
           end.

Definition get {S} : Js S S := fun s => (Normal s, s).
Definition put {S} (s : S) : Js S unit := fun _ => (Normal tt, s).
Definition modify {S} (f : S -> S) : Js S unit := fun s => (Normal tt, f s).

Notation "x <- c ;; k" := (bind c (fun x => k))
  (at level 100, c at next level, right associativity) : js_scope.
Notation "c ;; k" := (bind c (fun _ => k))
  (at level 100, right associativity) : js_scope.

(** ** Generic lemmas of the monad *)

Lemma bind_ret_l {S A B} (a : A) (k : A -> Js S B) s :
  bind (ret a) k s = k a s.
Proof. reflexivity. Qed.

Lemma bind_assoc {S A B C} (c : Js S A) (k : A -> Js S B) (k' : B -> Js S C) s :
  bind (bind c k) k' s = bind c (fun a => bind (k a) k') s.
Proof. unfold bind. destruct (c s) as [[a|e] s']; reflexivity. Qed.

Lemma bind_throw {S A B} (e : js_error) (k : A -> Js S B) s :
  bind (throw e) k s = (Throw e, s).
Proof. reflexivity. Qed.

Lemma try_catch_normal {S A} (c : Js S A) h s a s' :
  c s = (Normal a, s') -> try_catch c h s = (Normal a, s').
Proof. unfold try_catch. intros ->. reflexivity. Qed.

Lemma try_catch_throw {S A} (c : Js S A) h s e s' :
  c s = (Throw e, s') -> try_catch c h s = h e s'.
Proof. unfold try_catch. intros ->. reflexivity. Qed.

#[export] Hint Rewrite @bind_ret_l @bind_assoc @bind_throw : js_rw.

(** ** Generic lemmas on options and lists shared by the components *)

Lemma Forall_app_inv {A} (P : A -> Prop) l1 l2 :
  Forall P (l1 ++ l2) -> Forall P l1 /\ Forall P l2.
Proof. rewrite Forall_app. done. Qed.

#[export] Hint Resolve Forall_app_2 : js.

(** ** Settled promises

    The promise chains of the script run one reaction after the other,
    and each reaction waits for the previous promise to settle.  A
    promise is represented by its settlement; [p_then] and [p_catch] are
    [.then(f)] and [.catch(h)].  A reaction that throws is written as one
    that returns a rejected promise, which is what the engine makes of
    it. *)
Inductive promise (A : Type) : Type :=
| Resolved (v : A)
| Rejected (e : js_error).
Arguments Resolved {A} v.
Arguments Rejected {A} e.

Definition p_then {S A B} (p : promise A) (f : A -> Js S (promise B)) : Js S (promise B) :=
  match p with
  | Resolved a => f a
  | Rejected e => ret (Rejected e)
  end.

Definition p_catch {S A} (p : promise A) (h : js_error -> Js S (promise A)) : Js S (promise A) :=
  match p with
  | Resolved a => ret (Resolved a)
  | Rejected e => h e
  end.

(** ** Tactics *)

(** Unfold the monad's combinators and reduce. *)
Ltac js_unfold :=
  unfold bind, ret, throw, try_catch, get, put, modify, p_then, p_catch in *;
  simpl in *.

(** Case on the boolean tests of the goal, one at a time, keeping the
    equation. *)
Ltac case_if :=
  match goal with
  | |- context [if ?b then _ else _] =>
      let E := fresh "E" in destruct b eqn:E
  end.
