(* ===== verification/JsString.v ===== *)
(** * JS string primitives used by content.js

    The string operations the script calls, written the way ECMAScript
    defines them for the inputs the script gives them:
    - [js_split c s]: [s.split(c)] for a one-character separator
      ([window.location.pathname.split('/')], content.js line 7);
    - [includes s p]: [s.includes(p)] ([pathname.includes('/pull/')],
      line 127);
    - [trim s]: [s.trim()] (lines 32-34), which strips ECMAScript's
      WhiteSpace and LineTerminator code points from both ends;
    - [template_nullable]: how a template literal renders a value that is
      a string or [null] (the result of [getAttribute], lines 4 and 39).
    Strings hold UTF-8 bytes; [utf8] encodes a code point. *)

From Stdlib Require Import NArith.
From S2P Require Import Prelude.

(** ** Bytes and UTF-8 *)

Fixpoint bytes (l : list N) : string :=
  match l with
  | [] => EmptyString
  | n :: l' => String (ascii_of_N n) (bytes l')
  end.

(** UTF-8 encoding of a code point of the Basic Multilingual Plane. *)
Definition utf8 (cp : N) : string :=
  if N.ltb cp 128 then bytes [cp]
  else if N.ltb cp 2048 then bytes [192 + cp / 64; 128 + cp mod 64]%N
  else bytes [224 + cp / 4096; 128 + (cp / 64) mod 64; 128 + cp mod 64]%N.

(** ** [String.prototype.split] with a one-character separator *)

(** The segment before the first separator, and the segments after it. *)
Fixpoint split_aux (c : ascii) (s : string) : string * list string :=
  match s with
  | EmptyString => (EmptyString, [])
  | String a s' =>
      let '(h, t) := split_aux c s' in
      if ascii_dec a c then (EmptyString, h :: t) else (String a h, t)
  end.

Definition js_split (c : ascii) (s : string) : list string :=
  let '(h, t) := split_aux c s in h :: t.

(** [Array.prototype.join] with a one-character separator, the inverse
    of [js_split]. *)
Fixpoint join (c : ascii) (l : list string) : string :=
  match l with
  | [] => EmptyString
  | [x] => x
  | x :: l' => x ++ String c (join c l')
  end.

(** Occurrences of a character in a string. *)
Fixpoint count_char (c : ascii) (s : string) : nat :=
  match s with
  | EmptyString => 0
  | String a s' => (if ascii_dec a c then 1 else 0) + count_char c s'
  end.

(** ** [String.prototype.includes] *)

Fixpoint includes (s p : string) : bool :=
  String.prefix p s ||
  match s with
  | EmptyString => false
  | String _ s' => includes s' p
  end.

(** ** [String.prototype.trim] *)

(** ECMAScript's WhiteSpace (TAB, VT, FF, SP, NBSP, ZWNBSP and the
    category Zs) and LineTerminator (LF, CR, LS, PS) code points. *)
Definition js_whitespace_code_points : list N :=
  [9; 10; 11; 12; 13; 32; 160; 5760;
   8192; 8193; 8194; 8195; 8196; 8197; 8198; 8199; 8200; 8201; 8202;
   8232; 8233; 8239; 8287; 12288; 65279]%N.

Definition js_whitespace : list string := map utf8 js_whitespace_code_points.

Fixpoint strip_prefix (p s : string) : option string :=
  match p, s with
  | EmptyString, _ => Some s
  | String a p', String b s' => if ascii_dec a b then strip_prefix p' s' else None
  | String _ _, EmptyString => None
  end.

(** Remove the first of [ws] that begins [s]. *)
Fixpoint strip_any (ws : list string) (s : string) : option string :=
  match ws with
  | [] => None
  | w :: ws' =>
      match strip_prefix w s with
      | Some r => Some r
      | None => strip_any ws' s
      end
  end.

(** Strip leading whitespace; each round removes at least one byte, so
    [String.length s] rounds are enough ([trim_start_no_ws]). *)
Fixpoint trim_start_fuel (ws : list string) (fuel : nat) (s : string) : string :=
  match fuel with
  | 0 => s
  | S fuel' =>
      match strip_any ws s with
      | Some r => trim_start_fuel ws fuel' r
      | None => s
      end
  end.

Definition trim_start_with (ws : list string) (s : string) : string :=
  trim_start_fuel ws (String.length s) s.

Fixpoint srev (s : string) : string :=
  match s with
  | EmptyString => EmptyString
  | String a s' => srev s' ++ String a EmptyString
  end.

(** [s.trim()]: strip the start, then strip the end by stripping the
    start of the reversed string with the reversed encodings. *)
Definition trim (s : string) : string :=
  srev (trim_start_with (map srev js_whitespace)
          (srev (trim_start_with js_whitespace s))).

(** No encoding in [ws] is a proper prefix of another: UTF-8 is a
    prefix code, so a byte string starts with at most one of them. *)
Definition prefix_free (ws : list string) : bool :=
  forallb (fun w => forallb (fun w' => bool_decide (w = w') || negb (String.prefix w w')) ws) ws.

(** ** Template literals *)

(** [`${v}`] for [v : string | null]. *)
Definition template_nullable (v : option string) : string :=
  match v with
  | Some s => s
  | None => "null"
  end.

(** ** Lemmas *)

Lemma join_cons_String c a h t :
  join c (String a h :: t) = String a (join c (h :: t)).
Proof. destruct t; reflexivity. Qed.

(** Splitting and joining back gives the string. *)
Lemma js_split_join c s : join c (js_split c s) = s.
Proof.
  unfold js_split. induction s as [|a s IH]; [reflexivity|]. simpl.
  destruct (split_aux c s) as [h t]. destruct (ascii_dec a c) as [->|_].
  - simpl. destruct t; simpl in *; rewrite IH; reflexivity.
  - rewrite join_cons_String, IH. reflexivity.
Qed.

(** [split] yields one segment more than there are separators. *)
Lemma js_split_length c s : length (js_split c s) = S (count_char c s).
Proof.
  unfold js_split. induction s as [|a s IH]; [reflexivity|]. simpl.
  destruct (split_aux c s) as [h t]. simpl in IH.
  destruct (ascii_dec a c); simpl; lia.
Qed.

(** No segment contains the separator. *)
Lemma js_split_segments c s : Forall (fun x => count_char c x = 0) (js_split c s).
Proof.
  unfold js_split. induction s as [|a s IH]; [by constructor|]. simpl.
  destruct (split_aux c s) as [h t]. inversion IH; subst.
  destruct (ascii_dec a c); simpl.
  - by repeat constructor.
  - constructor; [|done]. simpl. destruct (ascii_dec a c); [done|lia].
Qed.

Lemma prefix_spec p s : String.prefix p s = true <-> exists post, s = p ++ post.
Proof.
  revert s. induction p as [|a p IH]; intros [|b s]; simpl.
  - split; intros; [exists ""|]; done.
  - split; intros; [exists (String b s)|]; done.
  - split; [done|]. intros [post Hp]. discriminate.
  - destruct (ascii_dec a b) as [->|Hne].
    + rewrite IH. split; intros [post Hp]; exists post; simpl in *; congruence.
    + split; [done|]. intros [post Hp]. congruence.
Qed.

(** [includes] holds exactly when the pattern occurs somewhere. *)
Lemma includes_spec s p :
  includes s p = true <-> exists pre post, s = pre ++ p ++ post.
Proof.
  induction s as [|a s IH]; cbn [includes]; rewrite orb_true_iff, prefix_spec.
  - split.
    + intros [[post Hp]|Hf]; [exists "", post; exact Hp|discriminate].
    + intros [pre [post Hp]]. destruct pre; [left; exists post; exact Hp|discriminate].
  - rewrite IH. split.
    + intros [[post Hp]|[pre [post Hp]]].
      * exists "", post. exact Hp.
      * exists (String a pre), post. simpl. congruence.
    + intros [pre [post Hp]]. destruct pre as [|b pre].
      * left. exists post. exact Hp.
      * right. simpl in Hp. injection Hp as -> ->. eauto.
Qed.

Lemma strip_prefix_spec p s r : strip_prefix p s = Some r <-> s = p ++ r.
Proof.
  revert s. induction p as [|a p IH]; intros s; simpl.
  - split; congruence.
  - destruct s as [|b s]; [split; discriminate|].
    destruct (ascii_dec a b) as [->|Hne].
    + rewrite IH. split; congruence.
    + split; [discriminate|congruence].
Qed.

Lemma strip_any_spec ws s r :
  strip_any ws s = Some r -> exists w, In w ws /\ s = w ++ r.
Proof.
  induction ws as [|w ws IH]; simpl; [discriminate|].
  destruct (strip_prefix w s) eqn:E.
  - intros [= <-]. apply strip_prefix_spec in E. eauto.
  - intros H. destruct (IH H) as (w' & ? & ?). eauto.
Qed.

Lemma length_append (s1 s2 : string) :
  String.length (s1 ++ s2) = String.length s1 + String.length s2.
Proof. induction s1; simpl; auto. Qed.

(** With no empty encoding in [ws], enough fuel removes every leading
    whitespace: the fuel [String.length s] of [trim_start_with] is
    sufficient. *)
Lemma trim_start_fuel_no_ws ws n s :
  Forall (fun w => w <> "") ws -> String.length s <= n ->
  strip_any ws (trim_start_fuel ws n s) = None.
Proof.
  intros Hne. revert s. induction n as [|n IH]; intros s Hlen; simpl.
  - destruct s; [|simpl in Hlen; lia].
    destruct (strip_any ws "") eqn:E; [|done].
    apply strip_any_spec in E as (w & Hin & Heq).
    rewrite Forall_forall in Hne. specialize (Hne w Hin).
    destruct w; [done|discriminate].
  - destruct (strip_any ws s) eqn:E; [|done]. apply IH.
    apply strip_any_spec in E as (w & Hin & ->).
    rewrite Forall_forall in Hne. specialize (Hne w Hin).
    rewrite length_append in Hlen. destruct w; [done|simpl in Hlen; lia].
Qed.

Lemma js_whitespace_nonempty : Forall (fun w => w <> "") js_whitespace.
Proof. vm_compute. repeat constructor; discriminate. Qed.

Lemma js_whitespace_prefix_free : prefix_free js_whitespace = true.
Proof. vm_compute. reflexivity. Qed.

#[export] Hint Resolve js_split_join js_whitespace_nonempty js_whitespace_prefix_free : js.

(** Of two decompositions of one string, one head extends the other. *)
Lemma app_prefix_cases (w w' r r' : string) :
  w ++ r = w' ++ r' -> exists x, w' = w ++ x \/ w = w' ++ x.
Proof.
  revert w'. induction w as [|a w IH]; intros [|b w'] H; simpl in *.
  - exists ""; by left.
  - exists (String b w'); by left.
  - exists (String a w); by right.
  - injection H as -> H. destruct (IH w' H) as [x [->| ->]]; exists x; [left|right]; done.
Qed.

Lemma app_cancel_l (w r r' : string) : w ++ r = w ++ r' -> r = r'.
Proof. induction w as [|a w IH]; simpl; [done|]. intros [= H]. auto. Qed.

Lemma prefix_free_spec ws w w' x :
  prefix_free ws = true -> In w ws -> In w' ws -> w' = w ++ x -> w' = w.
Proof.
  unfold prefix_free. rewrite forallb_forall. intros Hpf Hw Hw' Hx.
  specialize (Hpf w Hw). rewrite forallb_forall in Hpf.
  apply Hpf, orb_true_iff in Hw' as [H|H].
  - by apply bool_decide_eq_true in H.
  - assert (String.prefix w w' = true) by (apply prefix_spec; eauto).
    rewrite H0 in H. discriminate.
Qed.

Lemma strip_any_None ws s w : strip_any ws s = None -> In w ws -> strip_prefix w s = None.
Proof.
  induction ws as [|w0 ws IH]; simpl; [done|].
  destruct (strip_prefix w0 s) eqn:E; [discriminate|]. intros Hn [->|Hin]; auto.
Qed.

(** A string that starts with an encoding of a prefix-free list loses
    exactly that encoding. *)
Lemma strip_any_unique ws w r :
  prefix_free ws = true -> In w ws -> strip_any ws (w ++ r) = Some r.
Proof.
  intros Hpf Hw. destruct (strip_any ws (w ++ r)) as [r0|] eqn:E.
  - apply strip_any_spec in E as (w' & Hw' & Heq).
    destruct (app_prefix_cases _ _ _ _ Heq) as [x [Hx|Hx]].
    + pose proof (prefix_free_spec _ _ _ _ Hpf Hw Hw' Hx) as ->.
      by rewrite (app_cancel_l _ _ _ Heq).
    + pose proof (prefix_free_spec _ _ _ _ Hpf Hw' Hw Hx) as ->.
      by rewrite (app_cancel_l _ _ _ Heq).
  - pose proof (strip_any_None _ _ _ E Hw) as Hn.
    assert (strip_prefix w (w ++ r) = Some r) by (by apply strip_prefix_spec).
    congruence.
Qed.

Lemma strip_any_empty ws : Forall (fun w => w <> "") ws -> strip_any ws "" = None.
Proof.
  intros Hne. destruct (strip_any ws "") eqn:E; [|done].
  apply strip_any_spec in E as (w & Hin & Heq). rewrite Forall_forall in Hne.
  destruct w; [by destruct (Hne _ Hin)|discriminate].
Qed.

Lemma string_app_nil_r (s : string) : s ++ "" = s.
Proof. induction s as [|a s IH]; simpl; congruence. Qed.

Lemma string_app_assoc (x y z : string) : (x ++ y) ++ z = x ++ y ++ z.
Proof. induction x as [|a x IH]; simpl; congruence. Qed.

Lemma concat_empty_cons (w : string) l :
  String.concat "" (w :: l) = w ++ String.concat "" l.
Proof. destruct l; simpl; [by rewrite string_app_nil_r|reflexivity]. Qed.

(** A run of whitespace encodings is stripped whole, with as much fuel
    as it has bytes. *)
Lemma trim_start_fuel_concat ws l n :
  prefix_free ws = true -> Forall (fun w => w <> "") ws -> Forall (fun w => In w ws) l ->
  String.length (String.concat "" l) <= n ->
  trim_start_fuel ws n (String.concat "" l) = "".
Proof.
  intros Hpf Hne Hl. revert n. induction Hl as [|w l Hw Hl IH]; intros n Hn.
  - destruct n; simpl; [done|]. by rewrite strip_any_empty.
  - rewrite concat_empty_cons in *. rewrite length_append in Hn.
    assert (w <> "") by (rewrite Forall_forall in Hne; auto).
    destruct w as [|a w]; [done|]. destruct n as [|n]; [simpl in Hn; lia|].
    cbn [trim_start_fuel]. rewrite strip_any_unique by done.
    apply IH. simpl in Hn. lia.
Qed.



(** A separator after a separator-free prefix starts a new segment. *)
Lemma split_aux_app_sep c x y :
  count_char c x = 0 -> split_aux c (x ++ String c y) = (x, js_split c y).
Proof.
  unfold js_split. induction x as [|a x IH]; simpl; intros Hx.
  - destruct (split_aux c y). destruct (ascii_dec c c); done.
  - destruct (ascii_dec a c); [lia|]. rewrite IH by lia. reflexivity.
Qed.

Lemma js_split_no_sep c x : count_char c x = 0 -> js_split c x = [x].
Proof.
  unfold js_split. induction x as [|a x IH]; simpl; intros Hx; [done|].
  destruct (ascii_dec a c); [lia|]. destruct (split_aux c x) as [h t].
  injection (IH ltac:(lia)) as -> ->. reflexivity.
Qed.

(** Joining separator-free segments and splitting gives them back. *)
Lemma js_split_of_join c l :
  l <> [] -> Forall (fun x => count_char c x = 0) l -> js_split c (join c l) = l.
Proof.
  induction l as [|x [|y l] IH]; intros Hne Hl; [done| |].
  - inversion Hl. by apply js_split_no_sep.
  - inversion Hl as [|? ? Hx Hl']; subst.
    change (join c (x :: y :: l)) with (x ++ String c (join c (y :: l))).
    unfold js_split at 1. rewrite split_aux_app_sep by done.
    rewrite IH; done.
Qed.

(** A string made only of whitespace trims to the empty string. *)
Lemma trim_blank l :
  Forall (fun w => In w js_whitespace) l -> trim (String.concat "" l) = "".
Proof.
  intros Hl. unfold trim, trim_start_with.
  rewrite trim_start_fuel_concat by auto with js. reflexivity.
Qed.
