(* ===== verification/Dom.v ===== *)
(** * The page as content.js sees it

    The script reads and writes a small part of the document:
    - five [querySelector] results, one per fixed selector it uses
      (content.js lines 2, 19, 22, 25 and 112);
    - [getElementById('copy-pr-link-btn')] (lines 113, 137, 139), which
      looks at the whole document;
    - the children of the header action region, where [addButton]
      prepends the button (line 119);
    - the toast elements [showNotification] appends to [document.body]
      (line 89) and later removes (line 93);
    - [window.location] ([href] and [pathname], lines 7, 39, 127, 166-169).
    A [dom] record holds exactly these; the other elements of the page
    matter only through the ids they carry, kept in [other_nodes]. *)

From S2P Require Import Prelude JsString.

(** An element read by the extractor: its [textContent] and its
    attributes, in document order. *)
Record element := mk_element {
  textContent : string;
  attributes : list (string * string)
}.

(** [el.getAttribute(name)]: the first attribute of that name, or
    [null]. *)
Definition getAttribute (el : element) (name : string) : option string :=
  match find (fun kv => bool_decide (kv.1 = name)) (attributes el) with
  | Some kv => Some kv.2
  | None => None
  end.

(** An element of the header action region or elsewhere in the page:
    its [id] ([""] when it has none), [className], [textContent] and
    whether [handleButtonClick] is registered as its click listener. *)
Record node := mk_node {
  node_id : string;
  node_class : string;
  node_text : string;
  node_onclick : bool
}.

(** A toast [div] of [showNotification]: a serial number to tell toasts
    apart, its text and whether its opacity has been set to ['0']. *)
Record toast := mk_toast {
  toast_serial : nat;
  toast_text : string;
  toast_faded : bool
}.

Record location := mk_location {
  href : string;
  pathname : string
}.

Record dom := mk_dom {
  (** [querySelector('meta[name="octolytics-dimension-repository_nwo"]')] *)
  meta_repo : option element;
  (** [querySelector('.js-issue-title')] *)
  issue_title : option element;
  (** [querySelector('.author')] *)
  author_el : option element;
  (** [querySelector('.gh-header-number')] *)
  header_number : option element;
  (** [querySelector('.gh-header-actions')], with its children *)
  header_actions : option (list node);
  (** the other elements of the page that carry an id *)
  other_nodes : list node;
  (** the toasts appended to [document.body], oldest first *)
  toasts : list toast
}.

(** The fixed id of the button (content.js lines 113, 115, 137, 139). *)
Definition button_id : string := "copy-pr-link-btn".

(** Every element of the document that carries an id. *)
Definition all_nodes (d : dom) : list node :=
  match header_actions d with
  | Some l => l ++ other_nodes d
  | None => other_nodes d
  end.

(** [document.getElementById(id)]: the first element with that id. *)
Definition getElementById (d : dom) (id : string) : option node :=
  find (fun n => bool_decide (node_id n = id)) (all_nodes d).

(** The number of elements of the document with a given id. *)
Definition count_id (d : dom) (id : string) : nat :=
  length (filter (fun n => node_id n = id) (all_nodes d)).

(** ** Lemmas *)

Lemma getElementById_None d id :
  getElementById d id = None <-> count_id d id = 0.
Proof.
  unfold getElementById, count_id. induction (all_nodes d) as [|n l IH]; [done|].
  simpl. rewrite filter_cons. case_bool_decide; case_decide; simpl; try done; split; discriminate.
Qed.

Lemma getElementById_Some d id n :
  getElementById d id = Some n -> node_id n = id.
Proof.
  unfold getElementById. intros H. apply find_some in H as [_ H].
  by apply bool_decide_eq_true in H.
Qed.

#[export] Hint Resolve getElementById_Some : js.

(** ** Timers

    The callbacks the script passes to [setTimeout]: a retry of
    [tryAddButton] with the closure's counter (line 141), and the two
    steps of a toast's dismissal (lines 91-93). *)
Inductive task : Type :=
| TryAdd (attempts : nat)
| FadeToast (serial : nat)
| RemoveToast (serial : nat).

(** A pending timer: the time it is due and its callback. *)
Record timer := mk_timer {
  due : nat;
  job : task
}.

#[export] Instance task_eq_dec : EqDecision task.
Proof. solve_decision. Qed.
