(* ===== verification/RepoInfo.v ===== *)
(** * [getRepoInfo]: the repository slug (content.js lines 1-13)

    The slug comes from the [content] attribute of the metadata element
    when the page has one, and otherwise from the first two segments of
    [location.pathname].  The theorems give its value on every branch,
    the exact condition under which it throws, and the two places where
    the value can be other than an "owner/name" slug: a metadata element
    without a [content] attribute (the function returns [null]) and a
    path whose second segment is empty. *)

From S2P Require Import Prelude JsString Dom.

Definition slash : ascii := "/"%char.

(** The value is [string | null]: [getAttribute] may return [null]. *)
Definition getRepoInfo (d : dom) (loc : location) : completion (option string) :=
  match meta_repo d with
  | Some metaElement => Normal (getAttribute metaElement "content")
  | None =>
      let urlParts := js_split slash (pathname loc) in
      if (3 <=? length urlParts)%nat then
        Normal (Some (nth 1 urlParts "" ++ "/" ++ nth 2 urlParts ""))
      else Throw (Error "Could not find repo info")
  end.

(** The slug built from a path [/owner/name/...]. *)
Definition slug_of (owner name : string) : string := owner ++ "/" ++ name.

(** A path segment: no separator inside. *)
Definition segment (x : string) : Prop := count_char slash x = 0.

(** ** Theorems *)

(** The metadata element wins whenever it is present. *)
Lemma getRepoInfo_meta d loc el :
  meta_repo d = Some el -> getRepoInfo d loc = Normal (getAttribute el "content").
Proof. unfold getRepoInfo. intros ->. reflexivity. Qed.

(** C13 (functional): without the metadata element, a path
    [/owner/name/rest...] gives the slug "owner/name", the first two path
    segments joined by a slash, whatever follows. *)
Lemma getRepoInfo_from_path d loc owner name rest :
  meta_repo d = None ->
  Forall segment (owner :: name :: rest) ->
  pathname loc = join slash ("" :: owner :: name :: rest) ->
  getRepoInfo d loc = Normal (Some (slug_of owner name)).
Proof.
  unfold getRepoInfo. intros Hm Hseg Hp. rewrite Hm, Hp.
  rewrite js_split_of_join by (done || (constructor; [reflexivity|exact Hseg])).
  reflexivity.
Qed.

(** C14 (error): without the metadata element, [getRepoInfo] throws
    exactly when the path has fewer than two slashes; so a path such as
    [/octo/] (an empty second segment) is not an error and gives the slug
    "octo/". *)
Lemma getRepoInfo_throws_iff d loc :
  meta_repo d = None ->
  (exists e, getRepoInfo d loc = Throw e) <-> count_char slash (pathname loc) < 2.
Proof.
  unfold getRepoInfo. intros ->. rewrite js_split_length.
  destruct (Nat.leb_spec 3 (S (count_char slash (pathname loc)))).
  - split; [intros [e He]; discriminate|lia].
  - split; [lia|eauto].
Qed.

(** The error it throws is [Error('Could not find repo info')]. *)
Lemma getRepoInfo_error d loc e :
  getRepoInfo d loc = Throw e -> e = Error "Could not find repo info".
Proof.
  unfold getRepoInfo. destruct (meta_repo d); [discriminate|].
  case_if; congruence.
Qed.

Lemma getRepoInfo_from_path_witness :
  let d := mk_dom None None None None None [] [] in
  let loc := mk_location "https://github.com/octo/hello/pull/42" "/octo/hello/pull/42" in
  getRepoInfo d loc = Normal (Some (slug_of "octo" "hello")).
Proof.
  intros d loc. apply (getRepoInfo_from_path d loc "octo" "hello" ["pull"; "42"]);
    [reflexivity|by repeat constructor|reflexivity].
Defined.

Lemma getRepoInfo_throws_iff_witness :
  let d := mk_dom None None None None None [] [] in
  let loc := mk_location "https://github.com/octo" "/octo" in
  (exists e, getRepoInfo d loc = Throw e) <-> (count_char slash (pathname loc) < 2)%nat.
Proof. intros d loc. apply getRepoInfo_throws_iff. reflexivity. Defined.
