(* ===== verification/PRLink.v ===== *)
(** * [generatePRLink]: extraction and formatting (content.js lines 15-47)

    [generatePRLink] reads the three text elements, trims their text,
    asks [getRepoInfo] for the slug and returns the rich link (an anchor
    to [location.href]) and the plain text.  It is written as the code's
    two halves: [extract_summary] (lines 19-35, the spec's Page-Data
    Extractor, a [pr_summary] record) and [format_link] (lines 39-42, the
    spec's pure Link Formatter).

    Two readers of the anchor give the round trips.  [parse_anchor]
    accepts only an anchor whose text has no markup; [read_anchor] reads
    any anchor as an HTML consumer does ([visible_text]: the text up to
    the first [</a>], other tags skipped, the entities [&lt;], [&gt;],
    [&amp;] and [&quot;] decoded).  The plain text is the visible text
    when it has no markup ([generatePRLink_roundtrip]); the script escapes
    nothing, so a title holding [</a>] cuts the visible text short, while
    the text escaped by [escape_html] would read back whole
    ([markup_title_breaks_roundtrip]). *)

From S2P Require Import Prelude JsString Dom RepoInfo.

Definition dq_char : ascii := ascii_of_nat 34.
(** The double quote character as a one-character string. *)
Definition dq : string := String dq_char EmptyString.
(** The middle dot U+00B7 of the template. *)
Definition middot : string := utf8 183.

Record pr_link := mk_pr_link {
  richLink : string;
  plainText : string
}.

(** [`${title} by ${author} · ${prNumber} · ${repoInfo}`], the text of
    both templates (lines 39 and 42). *)
Definition link_text (title author prNumber repoInfo : string) : string :=
  title ++ " by " ++ author ++ " " ++ middot ++ " " ++ prNumber ++ " "
        ++ middot ++ " " ++ repoInfo.

(** [`<a href="${window.location.href}">${text}</a>`] (line 39). *)
Definition anchor (url text : string) : string :=
  "<a href=" ++ dq ++ url ++ dq ++ ">" ++ text ++ "</a>".

(** ** The two halves of [generatePRLink] *)

Record pr_summary := mk_pr_summary {
  title : string;
  author : string;
  number : string;
  repositorySlug : string;
  pageUrl : string
}.

(** Lines 19-35: the three elements, their trimmed text, the slug. *)
Definition extract_summary (d : dom) (loc : location) : completion pr_summary :=
  match issue_title d, author_el d, header_number d with
  | Some t, Some a, Some n =>
      match getRepoInfo d loc with
      | Throw e => Throw e
      | Normal r =>
          Normal (mk_pr_summary (trim (textContent t)) (trim (textContent a))
                    (trim (textContent n)) (template_nullable r) (href loc))
      end
  | _, _, _ => Throw (Error "Could not find required PR elements")
  end.

(** Lines 39-42: the two templates. *)
Definition format_link (s : pr_summary) : pr_link :=
  let text := link_text (title s) (author s) (number s) (repositorySlug s) in
  mk_pr_link (anchor (pageUrl s) text) text.

(** Lines 15-47: the summary formatted; an error of the extractor is
    logged and rethrown by the [catch] block (lines 43-46). *)
Definition generatePRLink (d : dom) (loc : location) : completion pr_link :=
  match extract_summary d loc with
  | Normal s => Normal (format_link s)
  | Throw e => Throw e
  end.

(** ** Reading the anchor back

    [take_until stop s] splits [s] before its first character in
    [stop]. *)
Fixpoint take_until (stop : ascii -> bool) (s : string) : string * string :=
  match s with
  | EmptyString => (EmptyString, EmptyString)
  | String c s' =>
      if stop c then (EmptyString, s)
      else let '(x, y) := take_until stop s' in (String c x, y)
  end.

Definition is_dq (c : ascii) : bool := bool_decide (c = dq_char).

(** A tag ([<]) or a character reference ([&]) starts in text. *)
Definition is_markup (c : ascii) : bool :=
  bool_decide (c = "<"%char) || bool_decide (c = "&"%char).

(** The href and the visible text of [<a href="url">text</a>]; [None]
    when the string is not such an anchor or its text holds a tag or a
    character reference. *)
Definition parse_anchor (s : string) : option (string * string) :=
  match strip_prefix ("<a href=" ++ dq) s with
  | None => None
  | Some r =>
      let '(url, r1) := take_until is_dq r in
      match strip_prefix (dq ++ ">") r1 with
      | None => None
      | Some r2 =>
          let '(text, r3) := take_until is_markup r2 in
          if bool_decide (r3 = "</a>") then Some (url, text) else None
      end
  end.

Fixpoint string_forallb (p : ascii -> bool) (s : string) : bool :=
  match s with
  | EmptyString => true
  | String c s' => p c && string_forallb p s'
  end.

(** Text a consumer reads back as written. *)
Definition html_plain (s : string) : bool := string_forallb (fun c => negb (is_markup c)) s.
Definition no_dq (s : string) : bool := string_forallb (fun c => negb (is_dq c)) s.

(** *** The visible text of an anchor, as an HTML consumer reads it *)

(** After a [<] that does not close the anchor: the rest past the tag's
    closing [>]. *)
Definition skip_tag (s : string) : option string :=
  match take_until (fun c => bool_decide (c = ">"%char)) s with
  | (_, String _ r) => Some r
  | (_, EmptyString) => None
  end.

(** After a [&]: the character a reference among [&lt;], [&gt;],
    [&amp;] and [&quot;] stands for and the rest, or a literal [&]. *)
Definition decode_entity (s : string) : ascii * string :=
  match strip_prefix "lt;" s with
  | Some r => ("<"%char, r)
  | None =>
  match strip_prefix "gt;" s with
  | Some r => (">"%char, r)
  | None =>
  match strip_prefix "amp;" s with
  | Some r => ("&"%char, r)
  | None =>
  match strip_prefix "quot;" s with
  | Some r => (dq_char, r)
  | None => ("&"%char, s)
  end end end end.

(** The text up to the first [</a>]: tags skipped, references decoded;
    [None] when the anchor is not closed.  Each round consumes at least
    one character, so [String.length s + 1] rounds are enough. *)
Fixpoint visible_text (fuel : nat) (s : string) : option string :=
  match fuel with
  | 0 => None
  | S fuel' =>
      match s with
      | EmptyString => None
      | String c s' =>
          if ascii_dec c "<"%char then
            match strip_prefix "/a>" s' with
            | Some _ => Some EmptyString
            | None =>
                match skip_tag s' with
                | Some r => visible_text fuel' r
                | None => None
                end
            end
          else if ascii_dec c "&"%char then
            let '(x, r) := decode_entity s' in
            option_map (String x) (visible_text fuel' r)
          else option_map (String c) (visible_text fuel' s')
      end
  end.

(** The href and the visible text of an anchor [<a href="url">...]. *)
Definition read_anchor (s : string) : option (string * string) :=
  match strip_prefix ("<a href=" ++ dq) s with
  | None => None
  | Some r =>
      let '(url, r1) := take_until is_dq r in
      match strip_prefix (dq ++ ">") r1 with
      | None => None
      | Some r2 => option_map (pair url) (visible_text (S (String.length r2)) r2)
      end
  end.

(** The HTML escaping the script does not do: [&], [<], [>] and the
    double quote as character references. *)
Fixpoint escape_html (s : string) : string :=
  match s with
  | EmptyString => EmptyString
  | String c s' =>
      (if ascii_dec c "&"%char then "&amp;"
       else if ascii_dec c "<"%char then "&lt;"
       else if ascii_dec c ">"%char then "&gt;"
       else if ascii_dec c dq_char then "&quot;"
       else String c EmptyString) ++ escape_html s'
  end.

(** ** Lemmas *)

Lemma take_until_app stop x c y :
  string_forallb (fun a => negb (stop a)) x = true -> stop c = true ->
  take_until stop (x ++ String c y) = (x, String c y).
Proof.
  intros Hx Hc. induction x as [|a x IH]; simpl in *.
  - by rewrite Hc.
  - apply andb_true_iff in Hx as [Ha Hx]. destruct (stop a); [done|].
    by rewrite IH.
Qed.

(** The anchor reads back as the URL and the text it was built from,
    when the text has no markup and the URL no quote. *)
Lemma parse_anchor_anchor url text :
  html_plain text = true -> no_dq url = true ->
  parse_anchor (anchor url text) = Some (url, text).
Proof.
  intros Ht Hu. unfold parse_anchor, anchor. simpl.
  rewrite (take_until_app is_dq url dq_char) by done. simpl.
  rewrite (take_until_app is_markup text "<"%char) by done.
  reflexivity.
Qed.

(** The reader finds the URL and reads the text up to the anchor's end. *)
Lemma read_anchor_anchor url text :
  no_dq url = true ->
  read_anchor (anchor url text) =
  option_map (pair url) (visible_text (S (String.length (text ++ "</a>"))) (text ++ "</a>")).
Proof.
  intros Hu. unfold read_anchor, anchor. simpl.
  rewrite (take_until_app is_dq url dq_char) by done. reflexivity.
Qed.

(** Escaped text reads back exactly, given a round per byte. *)
Lemma visible_text_escape t f :
  String.length (escape_html t) < f ->
  visible_text f (escape_html t ++ "</a>") = Some t.
Proof.
  revert f. induction t as [|c t IH]; intros [|f] Hf; [simpl in Hf; lia|done|simpl in Hf; lia|].
  cbn [escape_html] in *.
  destruct (ascii_dec c "&"%char) as [->|H1]; [simpl in *; rewrite IH by lia; done|].
  destruct (ascii_dec c "<"%char) as [->|H2]; [simpl in *; rewrite IH by lia; done|].
  destruct (ascii_dec c ">"%char) as [->|H3]; [simpl in *; rewrite IH by lia; done|].
  destruct (ascii_dec c dq_char) as [->|H4]; [simpl in *; rewrite IH by lia; done|].
  simpl in *. destruct (ascii_dec c "<"%char); [done|].
  destruct (ascii_dec c "&"%char); [done|]. rewrite IH by lia. done.
Qed.

Lemma html_plain_cons c s :
  html_plain (String c s) = true ->
  c <> "<"%char /\ c <> "&"%char /\ html_plain s = true.
Proof.
  unfold html_plain. cbn [string_forallb]. unfold is_markup.
  intros [Hc Hs]%andb_true_iff. split_and!; [| |done]; intros ->; discriminate.
Qed.

(** Text without markup is read up to the first [</a>] after it, and no
    further. *)
Lemma visible_text_stop pre post f :
  html_plain pre = true -> String.length pre < f ->
  visible_text f (pre ++ "</a>" ++ post) = Some pre.
Proof.
  revert f. induction pre as [|c pre IH]; intros [|f] Hp Hf; simpl in Hf; try lia; [done|].
  apply html_plain_cons in Hp as (H1 & H2 & Hp). simpl.
  destruct (ascii_dec c "<"%char); [done|]. destruct (ascii_dec c "&"%char); [done|].
  rewrite IH by (done || lia). done.
Qed.

(** ** Theorems *)

(** C20 (error): when the title, author or number element is missing,
    [generatePRLink] throws [Error('Could not find required PR
    elements')], whatever the rest of the page holds. *)
Theorem generatePRLink_missing_element d loc :
  issue_title d = None \/ author_el d = None \/ header_number d = None ->
  generatePRLink d loc = Throw (Error "Could not find required PR elements").
Proof.
  unfold generatePRLink, extract_summary.
  intros [H|[H|H]]; rewrite H; destruct (issue_title d), (author_el d); done.
Qed.

Lemma generatePRLink_missing_element_witness :
  generatePRLink (mk_dom None (Some (mk_element "Fix bug" [])) None None None [] [])
    (mk_location "https://github.com/octo/hello/pull/42" "/octo/hello/pull/42") =
  Throw (Error "Could not find required PR elements").
Proof. apply generatePRLink_missing_element. right; left. reflexivity. Defined.

(** Every link the function returns is the anchor to the page URL whose
    text is the plain text. *)
Lemma generatePRLink_rich_is_anchor d loc l :
  generatePRLink d loc = Normal l -> richLink l = anchor (href loc) (plainText l).
Proof.
  unfold generatePRLink, extract_summary.
  destruct (issue_title d), (author_el d), (header_number d); try discriminate.
  destruct (getRepoInfo d loc); [|discriminate]. by intros [= <-].
Qed.

(** C2 (roundtrip): an HTML consumer reading the rich link finds the
    page URL as its target and exactly the plain text as its visible
    text, provided the text has no markup character and the URL no
    double quote. *)
Theorem generatePRLink_roundtrip d loc l :
  generatePRLink d loc = Normal l ->
  html_plain (plainText l) = true -> no_dq (href loc) = true ->
  parse_anchor (richLink l) = Some (href loc, plainText l).
Proof.
  intros Hg Ht Hu. rewrite (generatePRLink_rich_is_anchor d loc l Hg).
  by apply parse_anchor_anchor.
Qed.

(** C1 (functional): the spec's scenario.  On the page
    [/octo/hello/pull/42] with no metadata element, a title reading
    "Fix bug", author "alice" and number "#42" (after [trim]), the slug
    is taken from the path and the link text is
    "Fix bug by alice · #42 · octo/hello", in both the plain text and
    the anchor to the page URL. *)
Theorem generatePRLink_spec_scenario d loc t a n :
  meta_repo d = None ->
  pathname loc = "/octo/hello/pull/42" ->
  issue_title d = Some t -> trim (textContent t) = "Fix bug" ->
  author_el d = Some a -> trim (textContent a) = "alice" ->
  header_number d = Some n -> trim (textContent n) = "#42" ->
  generatePRLink d loc =
  Normal (mk_pr_link (anchor (href loc) "Fix bug by alice · #42 · octo/hello")
                     "Fix bug by alice · #42 · octo/hello").
Proof.
  intros Hm Hp Ht Ht' Ha Ha' Hn Hn'. unfold generatePRLink, extract_summary, getRepoInfo.
  rewrite Ht, Ha, Hn, Ht', Ha', Hn', Hm, Hp. reflexivity.
Qed.

Lemma generatePRLink_spec_scenario_witness :
  let el s := mk_element s [] in
  let d := mk_dom None (Some (el (bytes [10; 32; 32]%N ++ "Fix bug ")))
                  (Some (el "alice")) (Some (el " #42")) None [] [] in
  let loc := mk_location "https://github.com/octo/hello/pull/42" "/octo/hello/pull/42" in
  generatePRLink d loc =
  Normal (mk_pr_link (anchor (href loc) "Fix bug by alice · #42 · octo/hello")
                     "Fix bug by alice · #42 · octo/hello").
Proof.
  intros el d loc.
  apply (generatePRLink_spec_scenario d loc
           (el (bytes [10; 32; 32]%N ++ "Fix bug ")) (el "alice") (el " #42"));
    vm_compute; reflexivity.
Defined.

Lemma generatePRLink_roundtrip_witness :
  let el s := mk_element s [] in
  let d := mk_dom None (Some (el "Fix bug")) (Some (el "alice")) (Some (el "#42"))
                  None [] [] in
  let loc := mk_location "https://github.com/octo/hello/pull/42" "/octo/hello/pull/42" in
  parse_anchor (anchor (href loc) "Fix bug by alice · #42 · octo/hello") =
  Some (href loc, "Fix bug by alice · #42 · octo/hello").
Proof.
  intros el d loc.
  exact (generatePRLink_roundtrip d loc
           (mk_pr_link (anchor (href loc) "Fix bug by alice · #42 · octo/hello")
                       "Fix bug by alice · #42 · octo/hello")
           eq_refl eq_refl eq_refl).
Defined.

(** C9 (roundtrip, its failure): the script interpolates the page text
    into HTML without escaping it.  Whenever the plain text's first
    markup character begins [</a>] (a PR titled "a</a><b>x", say), an
    HTML consumer reads the rich link's visible text as the part before
    it, not the plain text; the same text escaped by [escape_html] would
    read back whole. *)
Theorem markup_title_breaks_roundtrip d loc l pre post :
  generatePRLink d loc = Normal l -> no_dq (href loc) = true ->
  plainText l = pre ++ "</a>" ++ post -> html_plain pre = true ->
  read_anchor (richLink l) = Some (href loc, pre) /\
  read_anchor (anchor (href loc) (escape_html (plainText l))) = Some (href loc, plainText l).
Proof.
  intros Hg Hu Hp Hpre. rewrite (generatePRLink_rich_is_anchor d loc l Hg).
  rewrite !read_anchor_anchor by done. split.
  - rewrite Hp, !string_app_assoc, visible_text_stop by (done || (rewrite !length_append; lia)).
    done.
  - rewrite visible_text_escape by (rewrite length_append; lia). done.
Qed.

Lemma markup_title_breaks_roundtrip_witness :
  let el s := mk_element s [] in
  let d := mk_dom None (Some (el "a</a><b>x")) (Some (el "alice")) (Some (el "#42"))
                  None [] [] in
  let loc := mk_location "https://github.com/octo/hello/pull/42" "/octo/hello/pull/42" in
  let l := mk_pr_link (anchor (href loc) "a</a><b>x by alice · #42 · octo/hello")
                      "a</a><b>x by alice · #42 · octo/hello" in
  read_anchor (richLink l) = Some (href loc, "a") /\
  read_anchor (anchor (href loc) (escape_html (plainText l))) = Some (href loc, plainText l).
Proof.
  intros el d loc l. subst el d loc l.
  apply (markup_title_breaks_roundtrip
           (mk_dom None (Some (mk_element "a</a><b>x" [])) (Some (mk_element "alice" []))
                   (Some (mk_element "#42" [])) None [] [])
           (mk_location "https://github.com/octo/hello/pull/42" "/octo/hello/pull/42")
           _ "a" "<b>x by alice · #42 · octo/hello"); vm_compute; reflexivity.
Defined.

(** C21 (functional): a title element whose text is only white space
    (any run of ECMAScript WhiteSpace and LineTerminator code points) is
    accepted and gives an empty title, the link text starting with
    " by ": the code checks that the elements exist, not that their text
    is non-empty. *)
Theorem blank_title_accepted d loc t a n ws r :
  issue_title d = Some t -> textContent t = String.concat "" ws ->
  Forall (fun w => In w js_whitespace) ws ->
  author_el d = Some a -> header_number d = Some n -> getRepoInfo d loc = Normal r ->
  generatePRLink d loc =
  Normal (let text := link_text "" (trim (textContent a)) (trim (textContent n))
                                (template_nullable r) in
          mk_pr_link (anchor (href loc) text) text).
Proof.
  intros Ht Htc Hws Ha Hn Hr. unfold generatePRLink, extract_summary.
  rewrite Ht, Ha, Hn, Hr, Htc, trim_blank by done. reflexivity.
Qed.

Lemma blank_title_accepted_witness :
  let ws := [utf8 32; utf8 10; utf8 160; utf8 12288] in
  let d := mk_dom None (Some (mk_element (String.concat "" ws) [])) (Some (mk_element "alice" []))
                  (Some (mk_element "#42" [])) None [] [] in
  let loc := mk_location "https://github.com/octo/hello/pull/42" "/octo/hello/pull/42" in
  generatePRLink d loc =
  Normal (mk_pr_link (anchor (href loc) " by alice · #42 · octo/hello") " by alice · #42 · octo/hello").
Proof.
  intros ws d loc.
  apply (blank_title_accepted d loc (mk_element (String.concat "" ws) []) (mk_element "alice" [])
           (mk_element "#42" []) ws (Some "octo/hello")); try reflexivity.
  repeat constructor; vm_compute; tauto.
Defined.

(** C22 (functional): with a metadata element that has no [content]
    attribute, [getAttribute] returns [null] and the link names the
    repository "null". *)
Theorem meta_without_content_gives_null d loc el s :
  meta_repo d = Some el -> getAttribute el "content" = None ->
  extract_summary d loc = Normal s -> repositorySlug s = "null".
Proof.
  intros Hm Ha. unfold extract_summary.
  rewrite (getRepoInfo_meta d loc el Hm), Ha.
  destruct (issue_title d), (author_el d), (header_number d); try discriminate.
  by intros [= <-].
Qed.

Lemma meta_without_content_gives_null_witness :
  let el s := mk_element s [] in
  let m := mk_element "" [("name", "octolytics-dimension-repository_nwo")] in
  let d := mk_dom (Some m) (Some (el "Fix bug")) (Some (el "alice")) (Some (el "#42"))
                  None [] [] in
  let loc := mk_location "https://github.com/octo/hello/pull/42" "/octo/hello/pull/42" in
  repositorySlug (mk_pr_summary "Fix bug" "alice" "#42" "null" (href loc)) = "null".
Proof.
  intros el m d loc.
  exact (meta_without_content_gives_null d loc m _ eq_refl eq_refl eq_refl).
Defined.
