(* ===== verification/Clipboard.v ===== *)
(** * [copyToClipboard]: the Clipboard Writer (content.js lines 49-73)

    The clipboard is an external resource.  The model threads a
    [clip_state]: what the clipboard holds and the list of clipboard API
    calls made so far, in order.  A [clip_env] says which parts of the
    API the browser provides ([navigator.clipboard], its [write] method,
    the [ClipboardItem] constructor) and whether the browser accepts each
    kind of write.

    [copyToClipboard] returns the completion of the call itself (the
    branch without [write] reads [navigator.clipboard.writeText] and
    throws synchronously when [navigator.clipboard] is [undefined]; the
    rich branch throws synchronously when [ClipboardItem] is missing),
    and otherwise the settlement of the promise it returns.  The texts of
    the synchronous errors are JavaScriptCore's, the engine of Safari, for
    which the extension is built ("undefined is not an object (evaluating
    ...)" and "Can't find variable: ...").

    A present [navigator.clipboard] is taken to have [writeText]: every
    browser that has the asynchronous clipboard API (Safari from 13.1)
    has both [write] and [writeText], so [clip_env] has no flag for a
    missing [writeText].

    The theorems give the order of the calls (rich first, then at most one
    plain-text attempt), the messages, the error path, and a refinement:
    when the API is present, every run meets the spec's contract
    [clipboard_contract]. *)

From S2P Require Import Prelude.

(** What [navigator.clipboard.write] receives: one [ClipboardItem] with
    an ['text/html'] blob. *)
Inductive clip_data : Type :=
| HtmlItem (html : string)
| PlainText (text : string).

Inductive clip_call : Type :=
| CallWrite (html : string)
| CallWriteText (text : string).

Record clip_state := mk_clip_state {
  clip_content : option clip_data;
  clip_calls : list clip_call
}.

Record clip_env := mk_clip_env {
  (** [navigator.clipboard] is defined *)
  has_clipboard : bool;
  (** [navigator.clipboard.write] is defined *)
  has_write : bool;
  (** the global [ClipboardItem] is defined *)
  has_ClipboardItem : bool;
  (** the browser resolves [write] (permission granted, document focused) *)
  write_accepted : bool;
  (** the browser resolves [writeText] *)
  writeText_accepted : bool
}.

Definition rich_message : string := "Rich text link copied to clipboard!".
Definition plain_message : string := "Plain text link copied to clipboard.".
Definition copy_failed : js_error := Error "Failed to copy. Please copy manually.".

(** The reasons the browser gives for a rejected write; the script only
    logs them. *)
Definition write_rejection : js_error := Error "NotAllowedError".

Definition log_call (c : clip_call) (s : clip_state) : clip_state :=
  mk_clip_state (clip_content s) (clip_calls s ++ [c]).

(** [navigator.clipboard.write([new ClipboardItem({'text/html': blob})])]. *)
Definition clipboard_write (env : clip_env) (html : string) : Js clip_state (promise unit) :=
  fun s =>
    let s' := log_call (CallWrite html) s in
    if write_accepted env
    then (Normal (Resolved tt), mk_clip_state (Some (HtmlItem html)) (clip_calls s'))
    else (Normal (Rejected write_rejection), s').

(** [navigator.clipboard.writeText(text)]. *)
Definition clipboard_writeText (env : clip_env) (text : string) : Js clip_state (promise unit) :=
  fun s =>
    let s' := log_call (CallWriteText text) s in
    if writeText_accepted env
    then (Normal (Resolved tt), mk_clip_state (Some (PlainText text)) (clip_calls s'))
    else (Normal (Rejected write_rejection), s').

(** [navigator.clipboard.writeText(plainText).then(() => msg).catch(err =>
    { throw new Error('Failed to copy. Please copy manually.') })], the
    fallback of line 58 and the only path of line 66. *)
Definition write_plain (env : clip_env) (plainText : string) : Js clip_state (promise string) :=
  (q <- clipboard_writeText env plainText ;;
   q1 <- p_then q (fun _ => ret (Resolved plain_message)) ;;
   p_catch q1 (fun _ => ret (Rejected copy_failed)))%js.

Definition copyToClipboard (env : clip_env) (richLink plainText : string)
  : Js clip_state (promise string) :=
  if has_clipboard env && has_write env then
    if has_ClipboardItem env then
      (p <- clipboard_write env richLink ;;
       p1 <- p_then p (fun _ => ret (Resolved rich_message)) ;;
       p_catch p1 (fun _ => write_plain env plainText))%js
    else throw (ReferenceError "Can't find variable: ClipboardItem")
  else if has_clipboard env then write_plain env plainText
  else throw (TypeError "undefined is not an object (evaluating 'navigator.clipboard.writeText')").

(** ** The spec's contract of the Clipboard Writer

    A run either copies the rich link and says so, or copies the plain
    text and says so, or leaves the clipboard as it was and fails with
    the user-facing message. *)
Inductive clipboard_contract (rich plain : string) (s : clip_state)
  : completion (promise string) -> clip_state -> Prop :=
| contract_rich calls :
    clipboard_contract rich plain s (Normal (Resolved rich_message))
      (mk_clip_state (Some (HtmlItem rich)) calls)
| contract_plain calls :
    clipboard_contract rich plain s (Normal (Resolved plain_message))
      (mk_clip_state (Some (PlainText plain)) calls)
| contract_fail calls :
    clipboard_contract rich plain s (Normal (Rejected copy_failed))
      (mk_clip_state (clip_content s) calls).

(** ** Lemmas *)

(** The plain-text path: one [writeText] call; its message on success,
    the user-facing error otherwise. *)
Lemma write_plain_run env plain s :
  write_plain env plain s =
  (Normal (if writeText_accepted env then Resolved plain_message else Rejected copy_failed),
   mk_clip_state (if writeText_accepted env then Some (PlainText plain) else clip_content s)
                 (clip_calls s ++ [CallWriteText plain])).
Proof.
  unfold write_plain, clipboard_writeText. js_unfold.
  destruct (writeText_accepted env); reflexivity.
Qed.

(** The API the rich branch needs is there. *)
Definition rich_api (env : clip_env) : bool :=
  has_clipboard env && has_write env && has_ClipboardItem env.

Lemma copy_rich_branch env rich plain s :
  rich_api env = true ->
  copyToClipboard env rich plain s =
  if write_accepted env
  then (Normal (Resolved rich_message),
        mk_clip_state (Some (HtmlItem rich)) (clip_calls s ++ [CallWrite rich]))
  else write_plain env plain (log_call (CallWrite rich) s).
Proof.
  unfold rich_api, copyToClipboard. intros H.
  apply andb_true_iff in H as [H Hi]. rewrite H, Hi.
  unfold clipboard_write. js_unfold. destruct (write_accepted env); reflexivity.
Qed.

(** ** Theorems *)

(** C3 (functional): when the rich write succeeds, the result is the
    rich-success message, the clipboard holds the HTML item, and the only
    clipboard call made is that one [write]: no plain-text write is
    attempted. *)
Theorem copy_rich_success env rich plain s :
  rich_api env = true -> write_accepted env = true ->
  copyToClipboard env rich plain s =
  (Normal (Resolved rich_message),
   mk_clip_state (Some (HtmlItem rich)) (clip_calls s ++ [CallWrite rich])).
Proof. intros Ha Hw. by rewrite copy_rich_branch, Hw. Qed.

Lemma copy_rich_success_witness :
  copyToClipboard (mk_clip_env true true true true false) "<a>x</a>" "x"
    (mk_clip_state None []) =
  (Normal (Resolved rich_message), mk_clip_state (Some (HtmlItem "<a>x</a>")) [CallWrite "<a>x</a>"]).
Proof. apply copy_rich_success; reflexivity. Defined.

(** C4 (functional): when the rich write is rejected, exactly one
    plain-text write follows it; the result is the plain-text message
    if that write succeeds, and otherwise the error "Failed to copy.
    Please copy manually." with the clipboard unchanged. *)
Theorem copy_rich_rejected env rich plain s :
  rich_api env = true -> write_accepted env = false ->
  copyToClipboard env rich plain s =
  (Normal (if writeText_accepted env then Resolved plain_message else Rejected copy_failed),
   mk_clip_state (if writeText_accepted env then Some (PlainText plain) else clip_content s)
                 (clip_calls s ++ [CallWrite rich; CallWriteText plain])).
Proof.
  intros Ha Hw. rewrite copy_rich_branch, Hw by done.
  rewrite write_plain_run. simpl. by rewrite <- app_assoc.
Qed.

Lemma copy_rich_rejected_witness :
  copyToClipboard (mk_clip_env true true true false false) "<a>x</a>" "x"
    (mk_clip_state None []) =
  (Normal (Rejected copy_failed),
   mk_clip_state None [CallWrite "<a>x</a>"; CallWriteText "x"]).
Proof. apply copy_rich_rejected; reflexivity. Defined.

(** C12 (functional): without [navigator.clipboard.write] the script makes
    exactly one clipboard call, a plain-text write, and reports its
    outcome: the plain-text message, or the user-facing error with the
    clipboard unchanged. *)
Theorem copy_text_only env rich plain s :
  has_clipboard env = true -> has_write env = false ->
  copyToClipboard env rich plain s =
  (Normal (if writeText_accepted env then Resolved plain_message else Rejected copy_failed),
   mk_clip_state (if writeText_accepted env then Some (PlainText plain) else clip_content s)
                 (clip_calls s ++ [CallWriteText plain])).
Proof. unfold copyToClipboard. intros -> ->. apply write_plain_run. Qed.

Lemma copy_text_only_witness :
  copyToClipboard (mk_clip_env true false false false true) "<a>x</a>" "x"
    (mk_clip_state None []) =
  (Normal (Resolved plain_message), mk_clip_state (Some (PlainText "x")) [CallWriteText "x"]).
Proof. apply copy_text_only; reflexivity. Defined.

(** C10 (error): when [navigator.clipboard] is [undefined], the call
    throws a [TypeError] synchronously, before any clipboard call: the
    spec's fallback to the user-facing ClipboardError does not happen. *)
Theorem copy_no_clipboard_throws env rich plain s :
  has_clipboard env = false ->
  copyToClipboard env rich plain s =
  (Throw (TypeError "undefined is not an object (evaluating 'navigator.clipboard.writeText')"), s).
Proof. unfold copyToClipboard. intros ->. reflexivity. Qed.

Lemma copy_no_clipboard_throws_witness :
  copyToClipboard (mk_clip_env false false false false false) "<a>x</a>" "x"
    (mk_clip_state None []) =
  (Throw (TypeError "undefined is not an object (evaluating 'navigator.clipboard.writeText')"),
   mk_clip_state None []).
Proof. apply copy_no_clipboard_throws; reflexivity. Defined.

(** C11 (error): when [write] exists but [ClipboardItem] does not, the
    call throws a [ReferenceError] synchronously and the plain-text
    fallback is never tried. *)
Theorem copy_no_ClipboardItem_throws env rich plain s :
  has_clipboard env = true -> has_write env = true -> has_ClipboardItem env = false ->
  copyToClipboard env rich plain s = (Throw (ReferenceError "Can't find variable: ClipboardItem"), s).
Proof. unfold copyToClipboard. intros -> -> ->. reflexivity. Qed.

Lemma copy_no_ClipboardItem_throws_witness :
  copyToClipboard (mk_clip_env true true false true true) "<a>x</a>" "x"
    (mk_clip_state None []) =
  (Throw (ReferenceError "Can't find variable: ClipboardItem"), mk_clip_state None []).
Proof. apply copy_no_ClipboardItem_throws; reflexivity. Defined.

(** C7 (refinement): whenever the API the chosen branch needs is
    present, every run of [copyToClipboard] meets the spec's contract:
    the message says which copy succeeded and the clipboard holds that
    copy, or the clipboard is unchanged and the run fails with the
    user-facing error. *)
Theorem copyToClipboard_refines env rich plain s :
  has_clipboard env = true -> (has_write env = true -> has_ClipboardItem env = true) ->
  clipboard_contract rich plain s
    (fst (copyToClipboard env rich plain s)) (snd (copyToClipboard env rich plain s)).
Proof.
  intros Hc Hi. destruct (has_write env) eqn:Hw.
  - assert (Ha : rich_api env = true) by (unfold rich_api; rewrite Hc, Hw, Hi; done).
    rewrite copy_rich_branch by done. destruct (write_accepted env); [constructor|].
    rewrite write_plain_run. simpl. destruct (writeText_accepted env); constructor.
  - unfold copyToClipboard. rewrite Hc, Hw. cbn [andb]. rewrite write_plain_run. simpl.
    destruct (writeText_accepted env); constructor.
Qed.

Lemma copyToClipboard_refines_witness :
  clipboard_contract "<a>x</a>" "x" (mk_clip_state None [])
    (fst (copyToClipboard (mk_clip_env true true true false true) "<a>x</a>" "x"
            (mk_clip_state None [])))
    (snd (copyToClipboard (mk_clip_env true true true false true) "<a>x</a>" "x"
            (mk_clip_state None []))).
Proof. apply copyToClipboard_refines; reflexivity. Defined.

(** Every run ends in one of four ways: the two success messages, the
    user-facing failure, or a synchronous exception. *)
Lemma copy_result_cases env rich plain s :
  let r := fst (copyToClipboard env rich plain s) in
  r = Normal (Resolved rich_message) \/ r = Normal (Resolved plain_message) \/
  r = Normal (Rejected copy_failed) \/ exists e, r = Throw e.
Proof.
  unfold copyToClipboard, write_plain, clipboard_write, clipboard_writeText.
  destruct (has_clipboard env), (has_write env), (has_ClipboardItem env); js_unfold;
    repeat case_if; simpl; eauto 6.
Qed.
