(* ===== verification/Injection.v ===== *)
(** * The Injection Controller (content.js lines 111-148)

    [addButton] prepends the button to the header action region when the
    region exists and no element has the button's id.
    [checkAndAddButton] checks the path and starts a retry chain:
    [tryAddButton] with a fresh counter [attempts = 0].  Each run of
    [tryAddButton] gives up when the counter has reached [maxAttempts],
    does nothing when the button exists, and otherwise calls [addButton]
    and, if the button is still missing, increments the counter and
    schedules itself 1000 ms later.  The closure's counter is passed
    explicitly: a run returns the document and the counter of the retry
    it schedules, if any.

    Theorems: [addButton] never makes a second button; a run does work
    (schedules a retry or inserts the button, read off its result by
    [run_acted]) exactly when it calls [addButton]; a retry chain has at
    most ten such runs, and exactly ten when the header region never
    appears; a run is a no-op once the button exists. *)

From S2P Require Import Prelude JsString Dom.

Definition maxAttempts : nat := 10.
Definition retry_delay : nat := 1000.

(** The button [addButton] creates (lines 114-118). *)
Definition the_button : node :=
  mk_node button_id "btn btn-sm" "Copy PR Link" true.

Definition set_header_actions (d : dom) (h : option (list node)) : dom :=
  mk_dom (meta_repo d) (issue_title d) (author_el d) (header_number d) h
         (other_nodes d) (toasts d).

Definition addButton (d : dom) : dom :=
  match header_actions d, getElementById d button_id with
  | Some children, None => set_header_actions d (Some (the_button :: children))
  | _, _ => d
  end.

(** One run of [tryAddButton] with the counter at [attempts]: the
    document after it, and the counter of the retry it schedules. *)
Definition tryAddButton (attempts : nat) (d : dom) : dom * option nat :=
  if (maxAttempts <=? attempts)%nat then (d, None)
  else match getElementById d button_id with
       | Some _ => (d, None)
       | None =>
           let d' := addButton d in
           match getElementById d' button_id with
           | Some _ => (d', None)
           | None => (d', Some (S attempts))
           end
       end.

Definition is_pr_path (loc : location) : bool := includes (pathname loc) "/pull/".

(** [checkAndAddButton]: a fresh chain, counter at 0, on a PR path. *)
Definition checkAndAddButton (loc : location) (d : dom) : dom * option nat :=
  if is_pr_path loc then tryAddButton 0 d else (d, None).

(** Whether a run of [tryAddButton] did any work, read off its result
    alone: it scheduled a retry, or the document it leaves has more
    elements with the button's id than the one it found. *)
Definition run_acted (attempts : nat) (d : dom) : bool :=
  let '(d', retry) := tryAddButton attempts d in
  match retry with
  | Some _ => true
  | None => (count_id d button_id <? count_id d' button_id)%nat
  end.

(** The runs that did work in a retry chain started with counter
    [attempts], when its successive runs find the documents [pages]; the
    chain goes on only while a run schedules a retry. *)
Fixpoint chain_attempts (attempts : nat) (pages : list dom) : nat :=
  match pages with
  | [] => 0
  | d :: pages' =>
      (if run_acted attempts d then 1 else 0) +
      match snd (tryAddButton attempts d) with
      | Some n => chain_attempts n pages'
      | None => 0
      end
  end.

(** ** Lemmas *)

Lemma all_nodes_set_header d ch :
  all_nodes (set_header_actions d (Some ch)) = (ch ++ other_nodes d)%list.
Proof. reflexivity. Qed.

Lemma getElementById_prepend d ch :
  getElementById (set_header_actions d (Some (the_button :: ch))) button_id = Some the_button.
Proof. unfold getElementById. rewrite all_nodes_set_header. cbn [find app]. by rewrite bool_decide_eq_true_2. Qed.

Lemma count_id_prepend d ch :
  header_actions d = Some ch ->
  count_id (set_header_actions d (Some (the_button :: ch))) button_id =
  S (count_id d button_id).
Proof.
  intros Hh. unfold count_id. rewrite all_nodes_set_header. unfold all_nodes. rewrite Hh.
  rewrite <- app_comm_cons, filter_cons_True by done. reflexivity.
Qed.

(** [tryAddButton] by cases: give up, nothing to do, insert, or retry. *)
Lemma tryAddButton_cases k d :
  tryAddButton k d =
  if (maxAttempts <=? k)%nat then (d, None)
  else match getElementById d button_id, header_actions d with
       | Some _, _ => (d, None)
       | None, Some ch => (set_header_actions d (Some (the_button :: ch)), None)
       | None, None => (d, Some (S k))
       end.
Proof.
  unfold tryAddButton. case_if; [done|].
  destruct (getElementById d button_id) eqn:Hg; [done|].
  unfold addButton. rewrite Hg. destruct (header_actions d) as [ch|] eqn:Hh.
  - by rewrite getElementById_prepend.
  - by rewrite Hg.
Qed.

(** ** Theorems *)

(** C15 (invariant): [addButton] inserts a button only where no element
    has its id: it adds one element with that id when the header region
    exists and there is none yet, and otherwise changes nothing.  So it
    never makes a second button, however often it runs. *)
Theorem addButton_count d :
  count_id (addButton d) button_id =
  match header_actions d with
  | Some _ => if bool_decide (count_id d button_id = 0) then 1 else count_id d button_id
  | None => count_id d button_id
  end.
Proof.
  unfold addButton. destruct (header_actions d) as [ch|] eqn:Hh; [|done].
  destruct (getElementById d button_id) eqn:Hg.
  - assert (count_id d button_id <> 0) by (rewrite <- getElementById_None; congruence).
    by case_bool_decide.
  - apply getElementById_None in Hg as Hc. rewrite count_id_prepend, Hc by done.
    done.
Qed.

(** [tryAddButton] keeps the document's button count at most one. *)
Lemma tryAddButton_at_most_one k d :
  (count_id d button_id <= 1)%nat -> (count_id (fst (tryAddButton k d)) button_id <= 1)%nat.
Proof.
  rewrite tryAddButton_cases. case_if; [done|].
  destruct (getElementById d button_id) eqn:Hg; [done|].
  destruct (header_actions d) as [ch|] eqn:Hh; [|done].
  simpl. rewrite count_id_prepend by done.
  apply getElementById_None in Hg. lia.
Qed.

(** C16 (functional): once the button exists, a run of [tryAddButton]
    (and so [checkAndAddButton], on any page) changes nothing and
    schedules nothing. *)
Theorem tryAddButton_idempotent k d n :
  getElementById d button_id = Some n -> tryAddButton k d = (d, None).
Proof. rewrite tryAddButton_cases. intros ->. by case_if. Qed.

Lemma tryAddButton_idempotent_witness :
  let d := mk_dom None None None None (Some [the_button]) [] [] in
  tryAddButton 0 d = (d, None).
Proof. intros d. apply (tryAddButton_idempotent 0 d the_button). reflexivity. Defined.

Corollary checkAndAddButton_idempotent loc d n :
  getElementById d button_id = Some n -> checkAndAddButton loc d = (d, None).
Proof.
  unfold checkAndAddButton. intros H. case_if; [|done].
  rewrite tryAddButton_cases, H. by case_if.
Qed.

(** A retry is scheduled only below the limit, only while the header
    region is missing, with the counter one higher. *)
Lemma tryAddButton_retry k d d' n :
  tryAddButton k d = (d', Some n) ->
  n = S k /\ (k < maxAttempts)%nat /\ header_actions d = None /\ d' = d.
Proof.
  rewrite tryAddButton_cases. case_if; [done|]. apply Nat.leb_gt in E.
  destruct (getElementById d button_id), (header_actions d); try done.
  intros [= <- <-]. done.
Qed.

(** A run does work exactly when it is below the limit and finds no
    button: exactly the runs that call [addButton]. *)
Lemma run_acted_spec k d :
  run_acted k d = (k <? maxAttempts)%nat && bool_decide (getElementById d button_id = None).
Proof.
  unfold run_acted. rewrite tryAddButton_cases.
  destruct (Nat.leb_spec maxAttempts k) as [Hk|Hk].
  - rewrite (proj2 (Nat.ltb_ge _ _) Hk). apply Nat.ltb_irrefl.
  - rewrite (proj2 (Nat.ltb_lt _ _) Hk). cbn [andb].
    destruct (getElementById d button_id) eqn:Hg.
    + rewrite bool_decide_eq_false_2 by done. apply Nat.ltb_irrefl.
    + rewrite bool_decide_eq_true_2 by done.
      destruct (header_actions d) as [ch|] eqn:Hh; [|done].
      rewrite count_id_prepend by done. apply Nat.ltb_lt. lia.
Qed.

(** C5 (bounds): a retry chain started with counter [k] has at most
    [maxAttempts - k] runs that do work (schedule a retry or insert the
    button), whatever pages its runs find: a chain from
    [checkAndAddButton] makes at most ten attempts. *)
Theorem chain_attempts_bound k pages :
  (chain_attempts k pages <= maxAttempts - k)%nat.
Proof.
  revert k. induction pages as [|d pages IH]; intros k; simpl; [lia|].
  rewrite run_acted_spec.
  destruct (tryAddButton k d) as [d' [n|]] eqn:Ht; simpl.
  - apply tryAddButton_retry in Ht as (-> & Hk & _).
    specialize (IH (S k)). destruct (_ && _); lia.
  - destruct (Nat.ltb_spec k maxAttempts); simpl; [destruct (bool_decide _)|]; lia.
Qed.

(** C17 (liveness of the retry): when the header region never appears,
    the chain keeps retrying: each of its first ten runs does work (calls
    [addButton] and schedules the next run). *)
Theorem chain_attempts_missing_header pages :
  Forall (fun d => header_actions d = None /\ getElementById d button_id = None) pages ->
  chain_attempts 0 pages = min (length pages) maxAttempts.
Proof.
  assert (Hgen : forall k, (k <= maxAttempts)%nat ->
            Forall (fun d => header_actions d = None /\ getElementById d button_id = None) pages ->
            chain_attempts k pages = min (length pages) (maxAttempts - k)).
  { induction pages as [|d pages IH]; intros k Hk Hp; cbn [chain_attempts length]; [lia|].
    inversion Hp as [|? ? [Hh Hg] Hp']; subst.
    rewrite run_acted_spec, tryAddButton_cases, Hh, Hg.
    rewrite bool_decide_eq_true_2 by done.
    destruct (Nat.leb_spec maxAttempts k).
    - replace k with maxAttempts by lia.
      cbn. lia.
    - rewrite (proj2 (Nat.ltb_lt _ _) H). cbn [andb snd].
      rewrite IH by (lia || done). unfold maxAttempts in *. lia. }
  intros Hp. rewrite (Hgen 0) by (unfold maxAttempts; lia || done). done.
Qed.

Lemma chain_attempts_missing_header_witness :
  let d := mk_dom None None None None None [] [] in
  chain_attempts 0 (repeat d 12) = 10%nat.
Proof.
  intros d. rewrite (chain_attempts_missing_header (repeat d 12)).
  - reflexivity.
  - apply Forall_forall. intros x Hx. apply repeat_spec in Hx as ->. split; reflexivity.
Defined.
