(* ===== verification/Notification.v ===== *)
(** * [showNotification]: the Notification Presenter (content.js 75-95)

    A call appends a toast [div] with the message to [document.body] and
    sets a 3000 ms timer; that timer sets the toast's opacity to ['0'] and
    sets a 500 ms timer, which removes the toast.  The toast's style is a
    constant and is not modelled.  Each toast carries a serial number so
    that the timers can name it, as the closures of the source capture
    the element.

    The theorem [toast_lifecycle] shows that a toast shown at time [t] is
    faded by a timer due at [t + 3000] and removed by one due at
    [t + 3500], after which the body holds the toasts it held before. *)

From S2P Require Import Prelude Dom.

Definition toast_visible_ms : nat := 3000.
Definition toast_fade_ms : nat := 500.

Definition set_toasts (d : dom) (ts : list toast) : dom :=
  mk_dom (meta_repo d) (issue_title d) (author_el d) (header_number d)
         (header_actions d) (other_nodes d) ts.

(** [showNotification(message)] at time [now]: the page after the
    [appendChild] and the timer it sets. *)
Definition showNotification (serial now : nat) (message : string) (d : dom)
  : dom * list timer :=
  (set_toasts d (toasts d ++ [mk_toast serial message false])%list,
   [mk_timer (now + toast_visible_ms) (FadeToast serial)]).

(** The first timer's callback: [notification.style.opacity = '0'] and
    the second timer. *)
Definition fade_toast (serial now : nat) (d : dom) : dom * list timer :=
  (set_toasts d (map (fun t => if (toast_serial t =? serial)%nat
                               then mk_toast (toast_serial t) (toast_text t) true
                               else t) (toasts d)),
   [mk_timer (now + toast_fade_ms) (RemoveToast serial)]).

(** The second timer's callback: [notification.remove()], a no-op on a
    toast already gone. *)
Definition remove_toast (serial : nat) (d : dom) : dom :=
  set_toasts d (filter (fun t => toast_serial t <> serial) (toasts d)).

(** No toast of the body has this serial. *)
Definition fresh_serial (serial : nat) (d : dom) : Prop :=
  Forall (fun t => toast_serial t <> serial) (toasts d).

(** ** Lemmas *)

Lemma set_toasts_same d : set_toasts d (toasts d) = d.
Proof. by destruct d. Qed.

Lemma set_toasts_twice d ts ts' : set_toasts (set_toasts d ts) ts' = set_toasts d ts'.
Proof. reflexivity. Qed.

Lemma map_fade_fresh serial ts :
  Forall (fun t => toast_serial t <> serial) ts ->
  map (fun t => if (toast_serial t =? serial)%nat
                then mk_toast (toast_serial t) (toast_text t) true else t) ts = ts.
Proof.
  induction 1 as [|t ts Ht _ IH]; [done|]. simpl.
  rewrite (proj2 (Nat.eqb_neq _ _) Ht), IH. done.
Qed.

Lemma filter_fresh serial ts :
  Forall (fun t => toast_serial t <> serial) ts ->
  filter (fun t => toast_serial t <> serial) ts = ts.
Proof. induction 1 as [|t ts Ht _ IH]; [done|]. by rewrite filter_cons_True, IH. Qed.

(** ** Theorems *)

(** C23 (functional): the whole life of a toast.  A toast shown at [t]
    with a fresh serial gets a fade timer due at [t + 3000]; its callback
    fades exactly that toast and sets a removal timer due at [t + 3500];
    the removal leaves the body as it was before the toast. *)
Theorem toast_lifecycle serial t msg d :
  fresh_serial serial d ->
  let '(d1, timers1) := showNotification serial t msg d in
  timers1 = [mk_timer (t + 3000) (FadeToast serial)] /\
  let '(d2, timers2) := fade_toast serial (t + 3000) d1 in
  toasts d2 = (toasts d ++ [mk_toast serial msg true])%list /\
  timers2 = [mk_timer (t + 3500) (RemoveToast serial)] /\
  remove_toast serial d2 = d.
Proof.
  intros Hf. simpl. split; [done|]. split; [|split].
  - rewrite map_app, map_fade_fresh by done. simpl. by rewrite Nat.eqb_refl.
  - unfold toast_fade_ms. by rewrite <- Nat.add_assoc.
  - unfold remove_toast. simpl. rewrite map_app, map_fade_fresh by done. simpl.
    rewrite Nat.eqb_refl, list.filter_app, filter_fresh by done.
    rewrite filter_cons_False by (simpl; intros H; apply H; reflexivity).
    simpl. rewrite app_nil_r, !set_toasts_twice. apply set_toasts_same.
Qed.

Lemma toast_lifecycle_witness :
  let d := mk_dom None None None None None [] [] in
  let '(d1, timers1) := showNotification 0 100 "Generating PR link..." d in
  timers1 = [mk_timer (100 + 3000) (FadeToast 0)] /\
  let '(d2, timers2) := fade_toast 0 (100 + 3000) d1 in
  toasts d2 = (toasts d ++ [mk_toast 0 "Generating PR link..." true])%list /\
  timers2 = [mk_timer (100 + 3500) (RemoveToast 0)] /\
  remove_toast 0 d2 = d.
Proof. intros d. apply (toast_lifecycle 0 100 "Generating PR link..." d). constructor. Defined.
