(* ===== verification/Click.v ===== *)
(** * [handleButtonClick]: the click handler (content.js lines 98-108)

    A click shows "Generating PR link...", builds the link and starts the
    copy.  An exception thrown synchronously by [generatePRLink] or
    [copyToClipboard] is caught and shown as "An error occurred: " and its
    message; otherwise the settled promise shows its message (success)
    or the rejection's message (failure).  The model returns the
    messages shown, in order, and the clipboard state after the copy; the
    Event loop turns each message into a [showNotification] call. *)

From S2P Require Import Prelude JsString Dom RepoInfo PRLink Clipboard.

Definition generating_message : string := "Generating PR link...".
Definition error_prefix : string := "An error occurred: ".

Definition handleButtonClick (env : clip_env) (d : dom) (loc : location)
  (cs : clip_state) : list string * clip_state :=
  match generatePRLink d loc with
  | Throw error => ([generating_message; error_prefix ++ message error], cs)
  | Normal l =>
      match copyToClipboard env (richLink l) (plainText l) cs with
      | (Throw error, cs') => ([generating_message; error_prefix ++ message error], cs')
      | (Normal (Resolved msg), cs') => ([generating_message; msg], cs')
      | (Normal (Rejected error), cs') => ([generating_message; message error], cs')
      end
  end.

(** The second message reports one of the outcomes the spec names. *)
Definition reports_outcome (m : string) : Prop :=
  m = rich_message \/ m = plain_message \/ m = message copy_failed \/
  exists e, m = error_prefix ++ message e.

(** ** Theorems *)

(** C24 (error): every click shows exactly two toasts, first
    "Generating PR link...", then the rich or plain success message, the
    user-facing copy failure, or "An error occurred: " with the message
    of the exception: no failure of a click goes unreported. *)
Theorem click_reports env d loc cs :
  exists m, fst (handleButtonClick env d loc cs) = [generating_message; m] /\
            reports_outcome m.
Proof.
  unfold handleButtonClick, reports_outcome.
  destruct (generatePRLink d loc) as [l|e]; [|eauto 10].
  pose proof (copy_result_cases env (richLink l) (plainText l) cs) as Hc. simpl in Hc.
  destruct (copyToClipboard env (richLink l) (plainText l) cs) as [r cs'].
  simpl in Hc. destruct Hc as [->|[->|[->|[e ->]]]]; simpl; eauto 10.
Qed.

(** C25 (error): on a page without the title, author or number element,
    a click shows "An error occurred: Could not find required PR
    elements" and makes no clipboard call. *)
Theorem click_missing_element env d loc cs :
  issue_title d = None \/ author_el d = None \/ header_number d = None ->
  handleButtonClick env d loc cs =
  ([generating_message; "An error occurred: Could not find required PR elements"], cs).
Proof.
  intros H. unfold handleButtonClick, generatePRLink, extract_summary.
  destruct H as [H|[H|H]]; rewrite H; destruct (issue_title d), (author_el d); done.
Qed.

Lemma click_missing_element_witness :
  handleButtonClick (mk_clip_env true true true true true)
    (mk_dom None None None None None [] [])
    (mk_location "https://github.com/octo/hello/pull/42" "/octo/hello/pull/42")
    (mk_clip_state None []) =
  ([generating_message; "An error occurred: Could not find required PR elements"],
   mk_clip_state None []).
Proof. apply click_missing_element. left. reflexivity. Defined.

(** C26 (functional): end to end on the spec's scenario.  When the rich
    write succeeds, a click shows "Generating PR link..." then the
    rich-success message, and the clipboard holds the anchor whose text
    is "Fix bug by alice · #42 · octo/hello". *)
Theorem click_spec_scenario env d loc cs t a n :
  meta_repo d = None -> pathname loc = "/octo/hello/pull/42" ->
  issue_title d = Some t -> trim (textContent t) = "Fix bug" ->
  author_el d = Some a -> trim (textContent a) = "alice" ->
  header_number d = Some n -> trim (textContent n) = "#42" ->
  rich_api env = true -> write_accepted env = true ->
  handleButtonClick env d loc cs =
  ([generating_message; rich_message],
   mk_clip_state
     (Some (HtmlItem (anchor (href loc) "Fix bug by alice · #42 · octo/hello")))
     (clip_calls cs ++ [CallWrite (anchor (href loc) "Fix bug by alice · #42 · octo/hello")])).
Proof.
  intros Hm Hp Ht Ht' Ha Ha' Hn Hn' Hapi Hw.
  unfold handleButtonClick, generatePRLink, extract_summary, getRepoInfo.
  rewrite Ht, Ha, Hn, Ht', Ha', Hn', Hm, Hp. simpl.
  by rewrite copy_rich_branch, Hw.
Qed.

Lemma click_spec_scenario_witness :
  let el s := mk_element s [] in
  let d := mk_dom None (Some (el "Fix bug")) (Some (el "alice")) (Some (el "#42"))
                  None [] [] in
  let loc := mk_location "https://github.com/octo/hello/pull/42" "/octo/hello/pull/42" in
  handleButtonClick (mk_clip_env true true true true true) d loc (mk_clip_state None []) =
  ([generating_message; rich_message],
   mk_clip_state
     (Some (HtmlItem (anchor (href loc) "Fix bug by alice · #42 · octo/hello")))
     (clip_calls (mk_clip_state None []) ++
        [CallWrite (anchor (href loc) "Fix bug by alice · #42 · octo/hello")])).
Proof.
  intros el d loc.
  apply (click_spec_scenario _ d loc _ (el "Fix bug") (el "alice") (el "#42"));
    vm_compute; reflexivity.
Defined.
