(* ===== verification/EventLoop.v ===== *)
(** * The event loop: observers, timers and the host page (content.js
    lines 150-173)

    The script's top level installs two MutationObservers and runs
    [checkAndAddButton] once.  From then on everything it does happens in
    callbacks: the first observer runs [checkAndAddButton] once per
    childList record; the second compares [location.href] with [lastUrl]
    and runs [checkAndAddButton] when it changed; the timers run retries
    of [tryAddButton] and the two steps of a toast's dismissal; a click on
    the button runs [handleButtonClick].

    A [world] holds the page, the clipboard, the clock, the pending
    timers, the childList records each observer has not yet received, the
    global [lastUrl] and the next toast serial.  [step] is the event loop:
    the mutation-observer microtask runs whenever records are pending;
    otherwise the earliest timer fires, or the host page or the user acts.
    The observers see every childList change of the page: the button's
    insertion and the toasts' insertion and removal (all inside
    [document.body], so both observers get them), and the host page's own
    changes ([step_host]: those inside [document.body] reach both, those
    elsewhere in the document only the second); the toasts' opacity change
    is an attribute change, which neither observer asks for.

    Theorems: at most one button in every reachable world (rule induction
    on [step]); every pending retry has a counter between 1 and 10; the
    script's own activity (observer callbacks and timers) always stops:
    [internal_terminates] gives a measure that every internal step
    decreases, and [settle] with that much fuel reaches a quiet world. *)

From S2P Require Import Prelude JsString Dom Clipboard PRLink Injection Notification Click.

Record world := mk_world {
  w_loc : location;
  w_dom : dom;
  w_clip : clip_state;
  w_now : nat;
  (** pending [setTimeout] callbacks, in the order they were set *)
  w_timers : list timer;
  (** childList records queued for the first observer (body subtree) *)
  w_records1 : nat;
  (** childList records queued for the second observer (document subtree) *)
  w_records2 : nat;
  (** the global [lastUrl] (line 166) *)
  w_lastUrl : string;
  (** serial number of the next toast *)
  w_serial : nat
}.

(** ** Updating a world *)

(** A new page produced by [k] childList mutations of the script, each
    queued for both observers: the button goes into the header region and
    the toasts into [document.body], which both observers watch. *)
Definition with_dom (w : world) (d : dom) (k : nat) : world :=
  mk_world (w_loc w) d (w_clip w) (w_now w) (w_timers w)
           (w_records1 w + k) (w_records2 w + k) (w_lastUrl w) (w_serial w).

(** A change the host page makes itself: [k1] childList records inside
    [document.body], seen by both observers, and [k2 - k1] more outside
    it (in [document.head], say), seen by the second only. *)
Definition with_host_dom (w : world) (d : dom) (k1 k2 : nat) : world :=
  mk_world (w_loc w) d (w_clip w) (w_now w) (w_timers w)
           (w_records1 w + k1) (w_records2 w + k2) (w_lastUrl w) (w_serial w).

Definition with_timers (w : world) (ts : list timer) : world :=
  mk_world (w_loc w) (w_dom w) (w_clip w) (w_now w) ts
           (w_records1 w) (w_records2 w) (w_lastUrl w) (w_serial w).

Definition add_timers (w : world) (ts : list timer) : world :=
  with_timers w (w_timers w ++ ts)%list.

Definition with_records (w : world) (r1 r2 : nat) : world :=
  mk_world (w_loc w) (w_dom w) (w_clip w) (w_now w) (w_timers w)
           r1 r2 (w_lastUrl w) (w_serial w).

Definition with_lastUrl (w : world) (u : string) : world :=
  mk_world (w_loc w) (w_dom w) (w_clip w) (w_now w) (w_timers w)
           (w_records1 w) (w_records2 w) u (w_serial w).

Definition with_now (w : world) (t : nat) : world :=
  mk_world (w_loc w) (w_dom w) (w_clip w) t (w_timers w)
           (w_records1 w) (w_records2 w) (w_lastUrl w) (w_serial w).

Definition with_loc (w : world) (loc : location) : world :=
  mk_world loc (w_dom w) (w_clip w) (w_now w) (w_timers w)
           (w_records1 w) (w_records2 w) (w_lastUrl w) (w_serial w).

Definition with_clip (w : world) (cs : clip_state) : world :=
  mk_world (w_loc w) (w_dom w) cs (w_now w) (w_timers w)
           (w_records1 w) (w_records2 w) (w_lastUrl w) (w_serial w).

(** ** The script's callbacks on a world *)

(** The effect of one run of [tryAddButton]: the new page, one childList
    record when it inserted the button, and the retry it schedules 1000 ms
    later. *)
Definition apply_try (res : dom * option nat) (w : world) : world :=
  let '(d', retry) := res in
  let w1 := with_dom w d' (count_id d' button_id - count_id (w_dom w) button_id) in
  match retry with
  | Some n => add_timers w1 [mk_timer (w_now w + retry_delay) (TryAdd n)]
  | None => w1
  end.

(** [checkAndAddButton()]. *)
Definition run_check (w : world) : world :=
  apply_try (checkAndAddButton (w_loc w) (w_dom w)) w.

Fixpoint run_checks (n : nat) (w : world) : world :=
  match n with
  | 0 => w
  | S n' => run_checks n' (run_check w)
  end.

(** The second observer's callback (lines 167-172). *)
Definition url_watch (w : world) : world :=
  if bool_decide (href (w_loc w) = w_lastUrl w) then w
  else run_check (with_lastUrl w (href (w_loc w))).

(** The mutation-observer microtask: each observer, in the order they
    were created, takes its queued records and, if there are any, runs
    its callback.  The first callback runs [checkAndAddButton] once per
    record (lines 151-157); the records of the second include those made
    by the first callback. *)
Definition notify_observers (w : world) : world :=
  let w1 := run_checks (w_records1 w) (with_records w 0 (w_records2 w)) in
  if (w_records2 w1 =? 0)%nat then w1
  else url_watch (with_records w1 (w_records1 w1) 0).

(** [showNotification(m)] on a world: a fresh serial, one childList
    record, the fade timer. *)
Definition show_one (m : string) (w : world) : world :=
  let '(d', ts) := showNotification (w_serial w) (w_now w) m (w_dom w) in
  let w1 := add_timers (with_dom w d' 1) ts in
  mk_world (w_loc w1) (w_dom w1) (w_clip w1) (w_now w1) (w_timers w1)
           (w_records1 w1) (w_records2 w1) (w_lastUrl w1) (S (w_serial w)).

Fixpoint show_all (ms : list string) (w : world) : world :=
  match ms with
  | [] => w
  | m :: ms' => show_all ms' (show_one m w)
  end.

(** A click on the button: [handleButtonClick] with the browser's
    clipboard [env]; its toasts are shown in order.  The clipboard promise
    is taken to settle within the click's task. *)
Definition click (env : clip_env) (w : world) : world :=
  let '(ms, cs') := handleButtonClick env (w_dom w) (w_loc w) (w_clip w) in
  show_all ms (with_clip w cs').

(** A timer's callback, the timer being taken off the queue; the clock
    moves to its due time. *)
Definition fire (t : timer) (w0 : world) : world :=
  let w := with_now w0 (Nat.max (w_now w0) (due t)) in
  match job t with
  | TryAdd k => apply_try (tryAddButton k (w_dom w)) w
  | FadeToast s =>
      let '(d', ts) := fade_toast s (w_now w) (w_dom w) in
      add_timers (with_dom w d' 0) ts
  | RemoveToast s =>
      let present := existsb (fun t => (toast_serial t =? s)%nat) (toasts (w_dom w)) in
      with_dom w (remove_toast s (w_dom w)) (if present then 1 else 0)
  end.

(** ** Timer order: the earliest due first, the first set among equals *)

Definition min_due (t : timer) (ts : list timer) : nat :=
  fold_right (fun t' m => Nat.min (due t') m) (due t) ts.

Fixpoint take_due (m : nat) (ts : list timer) : option (timer * list timer) :=
  match ts with
  | [] => None
  | t :: ts' =>
      if (due t =? m)%nat then Some (t, ts')
      else match take_due m ts' with
           | Some (t', rest) => Some (t', t :: rest)
           | None => None
           end
  end.

Definition pop_earliest (ts : list timer) : option (timer * list timer) :=
  match ts with
  | [] => None
  | t :: ts' => take_due (min_due t ts') ts
  end.

(** ** Start and steps *)

(** Loading the script: the first observer starts observing, the initial
    [checkAndAddButton()] runs, [lastUrl] is read, and only then does the
    second observer start, so it never sees the initial insertion. *)
Definition script_start (loc : location) (d : dom) (cs : clip_state) (now : nat) : world :=
  let w1 := run_check (mk_world loc d cs now [] 0 0 "" 0) in
  with_records (with_lastUrl w1 (href loc)) (w_records1 w1) 0.

Definition quiet (w : world) : Prop := w_records1 w + w_records2 w = 0.

(** The host page changes its own content: it may replace or remove any
    element, including the button and the toasts, but never creates an
    element with the button's id nor a toast of the script. *)
Definition host_ok (d d' : dom) : Prop :=
  (count_id d' button_id <= count_id d button_id)%nat /\
  Forall (fun t => In t (toasts d)) (toasts d').

Inductive step : world -> world -> Prop :=
| step_notify w :
    (0 < w_records1 w + w_records2 w)%nat -> step w (notify_observers w)
| step_timer w t rest :
    quiet w -> pop_earliest (w_timers w) = Some (t, rest) ->
    step w (fire t (with_timers w rest))
| step_host w d' k1 k2 :
    quiet w -> host_ok (w_dom w) d' -> (k1 <= k2)%nat -> (0 < k2)%nat ->
    step w (with_host_dom w d' k1 k2)
| step_navigate w loc :
    quiet w -> step w (with_loc w loc)
| step_click w env n :
    quiet w -> getElementById (w_dom w) button_id = Some n -> node_onclick n = true ->
    step w (click env w).

Inductive star {A} (R : A -> A -> Prop) : A -> A -> Prop :=
| star_refl a : star R a a
| star_step a b c : R a b -> star R b c -> star R a c.

(** A property every step preserves holds along every run. *)
Lemma star_preserves {A} {R : A -> A -> Prop} (P : A -> Prop) :
  (forall a b, R a b -> P a -> P b) -> forall a b, star R a b -> P a -> P b.
Proof. intros HR a b Hs. induction Hs; eauto. Qed.

(** The worlds a script started on a page with at most one element of
    the button's id can reach. *)
Definition reachable (w : world) : Prop :=
  exists loc d cs now, (count_id d button_id <= 1)%nat /\
                       star step (script_start loc d cs now) w.

(** The script's own next step, when the host and the user are quiet. *)
Definition next_internal (w : world) : option world :=
  if (0 <? w_records1 w + w_records2 w)%nat then Some (notify_observers w)
  else match pop_earliest (w_timers w) with
       | Some (t, rest) => Some (fire t (with_timers w rest))
       | None => None
       end.

Fixpoint settle (fuel : nat) (w : world) : world :=
  match fuel with
  | 0 => w
  | S fuel' =>
      match next_internal w with
      | Some w' => settle fuel' w'
      | None => w
      end
  end.

(** ** Lemmas on the timer queue *)

Lemma take_due_perm m ts t rest :
  take_due m ts = Some (t, rest) -> Permutation ts (t :: rest).
Proof.
  revert rest. induction ts as [|t' ts IH]; intros rest; simpl; [discriminate|].
  case_if; [by intros [= -> ->]|].
  destruct (take_due m ts) as [[t'' rest']|]; [|discriminate].
  intros [= -> <-]. rewrite (IH rest' eq_refl). apply perm_swap.
Qed.

Lemma pop_earliest_perm ts t rest :
  pop_earliest ts = Some (t, rest) -> Permutation ts (t :: rest).
Proof. destruct ts; [discriminate|]. apply take_due_perm. Qed.

Lemma min_due_in t ts : exists t', In t' (t :: ts) /\ due t' = min_due t ts.
Proof.
  induction ts as [|t1 ts IH]; simpl; [eauto|].
  destruct IH as (t' & Hin & Heq). rewrite <- Heq.
  destruct (Nat.min_spec (due t1) (due t')) as [[_ ->]|[_ ->]]; [eauto|].
  exists t'. destruct Hin as [<-|Hin]; auto.
Qed.

Lemma take_due_some m ts t' :
  In t' ts -> due t' = m -> exists t rest, take_due m ts = Some (t, rest).
Proof.
  induction ts as [|t ts IH]; simpl; [done|]. intros [->|Hin] Hd.
  - rewrite Hd, Nat.eqb_refl. eauto.
  - case_if; [eauto|]. destruct (IH Hin Hd) as (t1 & r & ->). eauto.
Qed.

(** The queue yields a timer exactly when it is not empty. *)
Lemma pop_earliest_None ts : pop_earliest ts = None <-> ts = [].
Proof.
  split; [|by intros ->]. destruct ts as [|t ts]; [done|]. simpl.
  destruct (min_due_in t ts) as (t' & Hin & Hd).
  destruct (take_due_some _ (t :: ts) t' Hin Hd) as (t1 & r & Ht).
  simpl in Ht. by rewrite Ht.
Qed.

(** ** The button invariant *)

Definition inv_button (w : world) : Prop := (count_id (w_dom w) button_id <= 1)%nat.

Lemma count_id_set_toasts d ts id : count_id (set_toasts d ts) id = count_id d id.
Proof. reflexivity. Qed.

Lemma apply_try_dom res w : w_dom (apply_try res w) = fst res.
Proof. destruct res as [d [n|]]; reflexivity. Qed.

Lemma run_check_inv w : inv_button w -> inv_button (run_check w).
Proof.
  unfold inv_button, run_check, checkAndAddButton. rewrite apply_try_dom.
  case_if; [apply tryAddButton_at_most_one|done].
Qed.

Lemma run_checks_inv n w : inv_button w -> inv_button (run_checks n w).
Proof. revert w. induction n; simpl; auto using run_check_inv. Qed.

Lemma notify_inv w : inv_button w -> inv_button (notify_observers w).
Proof.
  intros H. unfold notify_observers.
  pose proof (run_checks_inv (w_records1 w) (with_records w 0 (w_records2 w)) H) as H1.
  case_if; [done|]. unfold url_watch. case_bool_decide; [done|].
  by apply run_check_inv.
Qed.

Lemma show_all_inv ms w : inv_button w -> inv_button (show_all ms w).
Proof. revert w. induction ms as [|m ms IH]; intros w H; [done|]. apply IH, H. Qed.

Lemma fire_inv t w : inv_button w -> inv_button (fire t w).
Proof.
  unfold fire. destruct (job t) as [k|s|s]; unfold inv_button.
  - rewrite apply_try_dom. apply tryAddButton_at_most_one.
  - done.
  - done.
Qed.

Lemma step_inv w w' : step w w' -> inv_button w -> inv_button w'.
Proof.
  intros Hs H. destruct Hs as [w Hp|w t rest Hq Hpop|w d' k1 k2 Hq [Hc _] Hk Hk2|w loc Hq|w env n Hq Hg Ho].
  - by apply notify_inv.
  - by apply fire_inv.
  - unfold inv_button in *. simpl. lia.
  - done.
  - unfold click. destruct (handleButtonClick env (w_dom w) (w_loc w) (w_clip w)).
    by apply show_all_inv.
Qed.

Lemma star_inv w w' : star step w w' -> inv_button w -> inv_button w'.
Proof. apply star_preserves, step_inv. Qed.

Lemma script_start_inv loc d cs now :
  (count_id d button_id <= 1)%nat -> inv_button (script_start loc d cs now).
Proof. intros H. apply (run_check_inv (mk_world loc d cs now [] 0 0 "" 0) H). Qed.

(** ** Theorems *)

(** C8 (invariant): however many mutation records, URL changes, timers,
    clicks and host-page changes occur, a page never holds two elements
    with the button's id: every reachable world has at most one. *)
Theorem reachable_at_most_one_button w :
  reachable w -> (count_id (w_dom w) button_id <= 1)%nat.
Proof.
  intros (loc & d & cs & now & Hd & Hs). apply (star_inv _ _ Hs).
  by apply script_start_inv.
Qed.

Lemma reachable_at_most_one_button_witness :
  let loc := mk_location "https://github.com/octo/hello/pull/42" "/octo/hello/pull/42" in
  let d0 := mk_dom None None None None None [] [] in
  let d1 := mk_dom None None None None (Some []) [] [] in
  let w0 := script_start loc d0 (mk_clip_state None []) 0 in
  (count_id (w_dom (notify_observers (with_host_dom w0 d1 1 1))) button_id <= 1)%nat.
Proof.
  intros loc d0 d1 w0. apply reachable_at_most_one_button.
  exists loc, d0, (mk_clip_state None []), 0. split; [subst; vm_compute; lia|].
  apply star_step with (with_host_dom w0 d1 1 1).
  { apply step_host; [subst; reflexivity|split; [subst; vm_compute; lia|subst; constructor]|lia|lia]. }
  apply star_step with (notify_observers (with_host_dom w0 d1 1 1)).
  { apply step_notify. subst; vm_compute; lia. }
  apply star_refl.
Defined.

(** ** The retry counters *)

Definition timer_ok (t : timer) : Prop :=
  match job t with
  | TryAdd k => (1 <= k <= maxAttempts)%nat
  | _ => True
  end.

Definition inv_timers (w : world) : Prop := Forall timer_ok (w_timers w).

Lemma add_timers_inv w ts : inv_timers w -> Forall timer_ok ts -> inv_timers (add_timers w ts).
Proof. unfold inv_timers. simpl. intros. by apply Forall_app_2. Qed.

Lemma apply_try_inv k d w :
  inv_timers w -> inv_timers (apply_try (tryAddButton k d) w).
Proof.
  unfold apply_try. destruct (tryAddButton k d) as [d' [n|]] eqn:Ht; [|done].
  apply tryAddButton_retry in Ht as (-> & Hk & _).
  intros H. apply add_timers_inv; [done|]. constructor; [|constructor]. unfold timer_ok. simpl.
  unfold maxAttempts in *. lia.
Qed.

Lemma run_check_timers w : inv_timers w -> inv_timers (run_check w).
Proof.
  unfold run_check, checkAndAddButton. case_if; [apply apply_try_inv|done].
Qed.

Lemma run_checks_timers n w : inv_timers w -> inv_timers (run_checks n w).
Proof. revert w. induction n; simpl; auto using run_check_timers. Qed.

Lemma notify_timers w : inv_timers w -> inv_timers (notify_observers w).
Proof.
  intros H. unfold notify_observers.
  pose proof (run_checks_timers (w_records1 w) (with_records w 0 (w_records2 w)) H) as H1.
  case_if; [done|]. unfold url_watch. case_bool_decide; [done|].
  by apply run_check_timers.
Qed.

Lemma show_all_timers ms w : inv_timers w -> inv_timers (show_all ms w).
Proof.
  revert w. induction ms as [|m ms IH]; intros w H; [done|]. apply IH.
  unfold show_one, inv_timers. simpl. apply Forall_app_2; [done|]. by repeat constructor.
Qed.

Lemma fire_timers t w : inv_timers w -> inv_timers (fire t w).
Proof.
  intros H. unfold fire. destruct (job t) as [k|s|s].
  - by apply apply_try_inv.
  - simpl. apply add_timers_inv; [done|]. by repeat constructor.
  - done.
Qed.

Lemma step_timers w w' : step w w' -> inv_timers w -> inv_timers w'.
Proof.
  intros Hs H. destruct Hs as [w Hp|w t rest Hq Hpop|w d' k1 k2 Hq _ Hk Hk2|w loc Hq|w env n Hq Hg Ho].
  - by apply notify_timers.
  - apply fire_timers. unfold inv_timers in *. simpl.
    apply pop_earliest_perm in Hpop. rewrite Hpop in H. by inversion H.
  - done.
  - done.
  - unfold click. destruct (handleButtonClick env (w_dom w) (w_loc w) (w_clip w)).
    by apply show_all_timers.
Qed.

(** C18 (bounds): in every reachable world, each pending retry of
    [tryAddButton] carries a counter between 1 and [maxAttempts]: a chain
    never schedules an eleventh attempt. *)
Theorem reachable_retry_bounds w :
  reachable w -> Forall timer_ok (w_timers w).
Proof.
  intros (loc & d & cs & now & _ & Hs). apply (star_preserves inv_timers step_timers _ _ Hs).
  apply (run_check_timers (mk_world loc d cs now [] 0 0 "" 0)). constructor.
Qed.

Lemma reachable_retry_bounds_witness :
  let loc := mk_location "https://github.com/octo/hello/pull/42" "/octo/hello/pull/42" in
  let d0 := mk_dom None None None None None [] [] in
  let w0 := script_start loc d0 (mk_clip_state None []) 0 in
  Forall timer_ok (w_timers (fire (mk_timer 1000 (TryAdd 1)) (with_timers w0 []))).
Proof.
  intros loc d0 w0. apply reachable_retry_bounds.
  exists loc, d0, (mk_clip_state None []), 0. split; [subst; vm_compute; lia|].
  apply star_step with (fire (mk_timer 1000 (TryAdd 1)) (with_timers w0 [])).
  { apply step_timer; subst; reflexivity. }
  apply star_refl.
Defined.

(** ** Termination of the script's own activity

    The measure charges each pending timer and each queued record.  While
    the button is missing, a record may start a retry chain, so it costs
    more than a fresh chain; once the button exists, records and retries
    are no-ops and cost one unit.  A toast's removal queues one record per
    observer, so it costs more than two records; its fade costs more than
    its removal.  The script never removes the button, so its own steps
    never make it missing again. *)

Definition missing (w : world) : bool := bool_decide (getElementById (w_dom w) button_id = None).

Definition weight (m : bool) (t : timer) : nat :=
  match job t with
  | TryAdd k => if m then 3 + (maxAttempts - k) else 1
  | FadeToast _ => 28
  | RemoveToast _ => 27
  end.

Fixpoint total (m : bool) (ts : list timer) : nat :=
  match ts with
  | [] => 0
  | t :: ts' => weight m t + total m ts'
  end.

(** What a queued record costs: a fresh chain, [weight m (TryAdd 0)]. *)
Definition record_weight (m : bool) : nat := if m then 13 else 1.

Definition measure (w : world) : nat :=
  total (missing w) (w_timers w) + (w_records1 w + w_records2 w) * record_weight (missing w).

Lemma total_app m ts ts' : total m (ts ++ ts')%list = total m ts + total m ts'.
Proof. induction ts; simpl; lia. Qed.

Lemma total_perm m ts ts' : Permutation ts ts' -> total m ts = total m ts'.
Proof. induction 1; simpl; lia. Qed.

Lemma weight_mono t : (weight false t <= weight true t)%nat.
Proof. unfold weight. destruct (job t); lia. Qed.

Lemma total_mono ts : (total false ts <= total true ts)%nat.
Proof. induction ts; simpl; [lia|]. pose proof (weight_mono a). lia. Qed.

(** [b] implies [a], for the flag [missing]. *)
Definition implb' (b a : bool) : Prop := b = true -> a = true.

Lemma measure_mono_le m m' ts r :
  implb' m' m ->
  (total m' ts + r * record_weight m' <= total m ts + r * record_weight m)%nat.
Proof.
  unfold implb'. destruct m', m; simpl; intros H; try lia.
  all: try (pose proof (total_mono ts); lia).
  all: by discriminate (H eq_refl).
Qed.

(** The three outcomes of a run of [tryAddButton]. *)
Lemma tryAddButton_effect k d :
  tryAddButton k d = (d, None) \/
  (tryAddButton k d = (d, Some (S k)) /\ (k < maxAttempts)%nat /\
   getElementById d button_id = None) \/
  (exists d', tryAddButton k d = (d', None) /\ getElementById d button_id = None /\
              getElementById d' button_id <> None /\
              count_id d' button_id = S (count_id d button_id)).
Proof.
  rewrite tryAddButton_cases. destruct (Nat.leb_spec maxAttempts k); [by left|].
  destruct (getElementById d button_id) eqn:Hg; [by left|].
  destruct (header_actions d) as [ch|] eqn:Hh; [|by right; left].
  right; right. eexists. split; [reflexivity|]. split; [done|].
  rewrite getElementById_prepend, count_id_prepend by done. done.
Qed.

Lemma apply_try_measure k w :
  let w' := apply_try (tryAddButton k (w_dom w)) w in
  implb' (missing w') (missing w) /\
  (measure w' + 1 <= measure w + weight (missing w) (mk_timer 0 (TryAdd k)))%nat.
Proof.
  cbv zeta. unfold measure, implb', missing, weight. simpl.
  destruct (tryAddButton_effect k (w_dom w)) as [->|[[-> [Hk Hg]]|(d' & -> & Hg & Hg' & Hc)]];
    simpl.
  - rewrite Nat.sub_diag, !Nat.add_0_r. case_bool_decide; lia.
  - rewrite Nat.sub_diag, !Nat.add_0_r, total_app. simpl. unfold weight. simpl.
    rewrite Hg, bool_decide_eq_true_2 by done. unfold maxAttempts in *. lia.
  - rewrite Hc, Nat.sub_succ_l, Nat.sub_diag by lia.
    rewrite (bool_decide_eq_false_2 _ Hg'), (bool_decide_eq_true_2 _ Hg).
    split; [done|]. pose proof (total_mono (w_timers w)). simpl. lia.
Qed.

Lemma weight_TryAdd0 m : weight m (mk_timer 0 (TryAdd 0)) = record_weight m.
Proof. by destruct m. Qed.

Lemma measure_with_records w a b :
  measure (with_records w a b) = total (missing w) (w_timers w) + (a + b) * record_weight (missing w).
Proof. reflexivity. Qed.

Lemma run_check_measure w :
  implb' (missing (run_check w)) (missing w) /\
  (measure (run_check w) + 1 <= measure w + record_weight (missing w))%nat.
Proof.
  unfold run_check, checkAndAddButton. case_if.
  - rewrite <- weight_TryAdd0. apply apply_try_measure.
  - unfold measure, missing, implb'. simpl. rewrite Nat.sub_diag, !Nat.add_0_r.
    split; [done|]. destruct (bool_decide _); simpl; lia.
Qed.

Lemma record_weight_mono m m' : implb' m' m -> (record_weight m' <= record_weight m)%nat.
Proof. unfold implb'. destruct m', m; simpl; intros H; try lia; by discriminate (H eq_refl). Qed.

Lemma run_checks_measure n w :
  implb' (missing (run_checks n w)) (missing w) /\
  (measure (run_checks n w) + n <= measure w + n * record_weight (missing w))%nat.
Proof.
  revert w. induction n as [|n IH]; intros w; simpl; [unfold implb'; split; [done|lia]|].
  destruct (run_check_measure w) as [Hm Hle]. destruct (IH (run_check w)) as [Hm' Hle'].
  pose proof (record_weight_mono _ _ Hm). split; [unfold implb' in *; auto|].
  assert (n * record_weight (missing (run_check w)) <= n * record_weight (missing w))%nat
    by (apply Nat.mul_le_mono_l; done).
  lia.
Qed.

Lemma url_watch_measure w :
  implb' (missing (url_watch w)) (missing w) /\
  (measure (url_watch w) + 1 <= measure w + record_weight (missing w))%nat.
Proof.
  unfold url_watch. case_bool_decide.
  - split; [unfold implb'; done|]. destruct (missing w); simpl; lia.
  - apply (run_check_measure (with_lastUrl w (href (w_loc w)))).
Qed.

(** The observer microtask consumes its records and costs less than
    them. *)
Lemma notify_measure w :
  (0 < w_records1 w + w_records2 w)%nat -> (measure (notify_observers w) < measure w)%nat.
Proof.
  intros Hp. unfold notify_observers.
  set (w0 := with_records w 0 (w_records2 w)).
  destruct (run_checks_measure (w_records1 w) w0) as [Hm1 Hle1].
  set (w1 := run_checks (w_records1 w) w0) in *.
  assert (Hw0 : measure w0 = total (missing w) (w_timers w) + w_records2 w * record_weight (missing w))
    by reflexivity.
  assert (Hw : measure w = total (missing w) (w_timers w) +
                           (w_records1 w + w_records2 w) * record_weight (missing w))
    by reflexivity.
  assert (Hr : (1 <= record_weight (missing w))%nat) by (destruct (missing w); simpl; lia).
  assert (Hm0 : missing w0 = missing w) by reflexivity. rewrite Hm0 in Hle1.
  case_if.
  - destruct (w_records1 w) eqn:Er1.
    + subst w1 w0. simpl in E. apply Nat.eqb_eq in E. lia.
    + nia.
  - apply Nat.eqb_neq in E.
    destruct (url_watch_measure (with_records w1 (w_records1 w1) 0)) as [_ Hle2].
    rewrite measure_with_records in Hle2.
    assert (Hw1 : measure w1 = total (missing w1) (w_timers w1) +
                               (w_records1 w1 + w_records2 w1) * record_weight (missing w1))
      by reflexivity.
    assert (Hr1 : (1 <= record_weight (missing w1))%nat) by (destruct (missing w1); simpl; lia).
    change (missing (with_records w1 (w_records1 w1) 0)) with (missing w1) in Hle2.
    nia.
Qed.

Lemma missing_set_toasts w d ts k :
  missing (with_dom w (set_toasts d ts) k) = missing (with_dom w d k).
Proof. reflexivity. Qed.

(** A timer's callback costs less than the timer. *)
Lemma fire_measure t w :
  quiet w -> (measure (fire t w) < measure w + weight (missing w) t)%nat.
Proof.
  unfold quiet. intros Hq. unfold fire.
  set (w' := with_now w (Nat.max (w_now w) (due t))).
  assert (Hm : measure w' = measure w) by reflexivity.
  assert (Hmi : missing w' = missing w) by reflexivity.
  assert (Hq' : w_records1 w' + w_records2 w' = 0) by exact Hq.
  unfold weight. destruct (job t) as [k|s|s] eqn:Hj.
  - destruct (apply_try_measure k w') as [_ Hle]. rewrite Hm, Hmi in Hle.
    unfold weight in Hle. simpl in Hle. change (w_dom w') with (w_dom w).
    destruct (missing w); lia.
  - unfold measure. simpl. rewrite total_app. simpl.
    change (missing (add_timers _ _)) with (missing w). unfold weight. simpl. lia.
  - unfold measure. simpl.
    change (missing (with_dom _ _ _)) with (missing w).
    assert (Hk : ((if existsb (fun t0 => (toast_serial t0 =? s)%nat) (toasts (w_dom w'))
                   then 1 else 0) <= 1)%nat) by (case_if; lia).
    destruct (missing w); simpl in *; nia.
Qed.

Lemma next_internal_measure w w' :
  next_internal w = Some w' -> (measure w' < measure w)%nat.
Proof.
  unfold next_internal. destruct (Nat.ltb_spec 0 (w_records1 w + w_records2 w)) as [Hp|Hq].
  - intros [= <-]. by apply notify_measure.
  - destruct (pop_earliest (w_timers w)) as [[t rest]|] eqn:Hpop; [|discriminate].
    intros [= <-]. apply pop_earliest_perm in Hpop.
    assert (Hq' : quiet (with_timers w rest)) by (unfold quiet; simpl; lia).
    pose proof (fire_measure t _ Hq') as Hf.
    assert (Hw : measure w = measure (with_timers w rest) + weight (missing w) t).
    { unfold measure. simpl. rewrite (total_perm _ _ _ Hpop). simpl. change (missing (with_timers w rest)) with (missing w). lia. }
    change (missing (with_timers w rest)) with (missing w) in Hf. lia.
Qed.

Lemma next_internal_step w w' : next_internal w = Some w' -> step w w'.
Proof.
  unfold next_internal. destruct (Nat.ltb_spec 0 (w_records1 w + w_records2 w)) as [Hp|Hq].
  - intros [= <-]. by constructor.
  - destruct (pop_earliest (w_timers w)) as [[t rest]|] eqn:Hpop; [|discriminate].
    intros [= <-]. apply step_timer; [unfold quiet; lia|done].
Qed.

Lemma next_internal_None w :
  next_internal w = None <-> w_records1 w = 0 /\ w_records2 w = 0 /\ w_timers w = [].
Proof.
  unfold next_internal. destruct (Nat.ltb_spec 0 (w_records1 w + w_records2 w)).
  - split; [discriminate|lia].
  - destruct (pop_earliest (w_timers w)) as [[t rest]|] eqn:Hpop.
    + split; [discriminate|]. intros (_ & _ & Ht). rewrite Ht in Hpop. discriminate.
    + apply pop_earliest_None in Hpop. split; [intros _; repeat split; [lia|lia|done]|done].
Qed.

Lemma settle_star fuel w : star step w (settle fuel w).
Proof.
  revert w. induction fuel as [|fuel IH]; intros w; simpl; [constructor|].
  destruct (next_internal w) as [w'|] eqn:Hn; [|constructor].
  econstructor; [by apply next_internal_step|apply IH].
Qed.

(** C6 (termination): the script's own activity cannot go on forever.
    Observer callbacks and timers, with the host page and the user quiet,
    form a well-founded relation: the button's own insertion, the
    toasts' insertion and removal, and the retries never feed the
    observers without end. *)
Theorem internal_terminates : well_founded (fun w' w => next_internal w = Some w').
Proof.
  apply (Wf_nat.well_founded_lt_compat _ measure). intros w' w. apply next_internal_measure.
Qed.

(** C19 (liveness): from any world, [measure w] internal steps reach a
    world with no queued mutation record and no pending timer: every
    retry chain has ended and every toast has been removed. *)
Theorem settle_quiesces fuel w :
  (measure w < fuel)%nat ->
  star step w (settle fuel w) /\
  w_records1 (settle fuel w) = 0 /\ w_records2 (settle fuel w) = 0 /\
  w_timers (settle fuel w) = [].
Proof.
  intros Hf. split; [apply settle_star|]. apply next_internal_None.
  revert w Hf. induction fuel as [|fuel IH]; intros w Hf; [lia|]. simpl.
  destruct (next_internal w) as [w'|] eqn:Hn; [|done].
  apply IH. pose proof (next_internal_measure _ _ Hn). lia.
Qed.

Lemma settle_quiesces_witness :
  let loc := mk_location "https://github.com/octo/hello/pull/42" "/octo/hello/pull/42" in
  let w0 := script_start loc (mk_dom None None None None None [] []) (mk_clip_state None []) 0 in
  let w1 := click (mk_clip_env true true true true true) w0 in
  star step w1 (settle 1000 w1) /\
  w_records1 (settle 1000 w1) = 0 /\ w_records2 (settle 1000 w1) = 0 /\
  w_timers (settle 1000 w1) = [].
Proof. intros loc w0 w1. apply settle_quiesces. subst; vm_compute; lia. Defined.

(** ** Behaviours the spec describes otherwise *)

Definition pr_loc : location :=
  mk_location "https://github.com/octo/hello/pull/42" "/octo/hello/pull/42".
Definition issue_loc : location :=
  mk_location "https://github.com/octo/hello/issues/7" "/octo/hello/issues/7".
Definition page_without_header : dom := mk_dom None None None None None [] [].
Definition page_with_header : dom := mk_dom None None None None (Some []) [] [].

Definition is_retry (t : timer) : bool :=
  match job t with TryAdd _ => true | _ => false end.

(** C27 (safety): a pending retry does not look at the URL.  When a
    retry of [tryAddButton] fires on a page that is no longer a PR page
    (the user navigated away) and that page has a header region without
    the button, the retry inserts the button there; the spec says such a
    retry becomes a no-op. *)
Theorem retry_ignores_navigation w k at_ ch :
  is_pr_path (w_loc w) = false -> getElementById (w_dom w) button_id = None ->
  header_actions (w_dom w) = Some ch -> (k < maxAttempts)%nat ->
  getElementById (w_dom (fire (mk_timer at_ (TryAdd k)) w)) button_id = Some the_button.
Proof.
  intros _ Hg Hh Hk. unfold fire. cbn [job]. rewrite apply_try_dom, tryAddButton_cases.
  cbn [w_dom with_now]. rewrite (proj2 (Nat.leb_gt _ _) Hk), Hg, Hh.
  apply getElementById_prepend.
Qed.

(** The hypotheses hold in a reachable world: the script started on a
    PR page before its header region existed, then the user navigated to
    an issue page that has one; the first retry is pending. *)
Lemma retry_ignores_navigation_witness :
  let w0 := script_start pr_loc page_without_header (mk_clip_state None []) 0 in
  let w := notify_observers (with_host_dom (with_loc w0 issue_loc) page_with_header 1 1) in
  reachable w /\ In (mk_timer 1000 (TryAdd 1)) (w_timers w) /\
  getElementById (w_dom (fire (mk_timer 1000 (TryAdd 1)) w)) button_id = Some the_button.
Proof.
  intros w0 w. split; [|split].
  - exists pr_loc, page_without_header, (mk_clip_state None []), 0.
    split; [vm_compute; lia|].
    apply star_step with (with_loc w0 issue_loc); [by apply step_navigate|].
    apply star_step with (with_host_dom (with_loc w0 issue_loc) page_with_header 1 1).
    { apply step_host; [reflexivity|split; [vm_compute; lia|constructor]|lia|lia]. }
    apply star_step with w; [apply step_notify; vm_compute; lia|]. apply star_refl.
  - subst w w0. vm_compute. left. reflexivity.
  - apply (retry_ignores_navigation w 1 1000 []); subst w w0; vm_compute; (reflexivity || lia).
Defined.

(** C28 (safety): a new [checkAndAddButton] does not stop the chains
    already running: after one childList change on a PR page whose header
    region has not appeared, two retry chains are pending, each with its
    own budget of ten attempts. *)
Theorem checks_start_parallel_chains :
  exists w, reachable w /\ length (filter (fun t => is_retry t = true) (w_timers w)) = 2.
Proof.
  set (w0 := script_start pr_loc page_without_header (mk_clip_state None []) 0).
  exists (notify_observers (with_host_dom w0 page_without_header 1 1)).
  split; [|vm_compute; reflexivity].
  exists pr_loc, page_without_header, (mk_clip_state None []), 0.
  split; [vm_compute; lia|].
  apply star_step with (with_host_dom w0 page_without_header 1 1).
  { apply step_host; [reflexivity|split; [vm_compute; lia|constructor]|lia|lia]. }
  eapply star_step; [apply step_notify; vm_compute; lia|]. apply star_refl.
Qed.
